(** * Video downloader front end: API routes and page logic

    A shallow embedding of the Next.js front end of the downloader:
    - [app/api/download-simple/route.ts], [app/api/video-info/route.ts] and
      the format-download route handler that accompanies it;
    - the click handlers, the progress-stream effect and [formatFileSize]
      of [app/page.tsx].

    JavaScript values are embedded as a small untyped value type; a handler
    is a computation that may throw and that records, in order, what it
    does to the outside (requests sent, state updates, closing the event
    source). The Python backend behind the routes is not part of the
    sources: the routes and the page take it as an arbitrary function from
    requests to responses, and the cancellation that the page relies on is
    modelled in [Orchestrator].

    A string stands for a JavaScript string by the bytes of its UTF-8
    encoding: a character up to U+007F is one byte, a character up to
    U+00FF two bytes that begin with 194 or 195, and every other character
    begins with a byte from 196 on.

    The file has three parts: the model, the vocabulary of the statements,
    and the lemmas and theorems. *)

From Stdlib Require Import ZArith NArith QArith Lia Ascii String.
From stdpp Require Import base option list strings gmap.

Set Warnings "-register-all".

Local Open Scope string_scope.
Local Open Scope list_scope.
Local Open Scope Z_scope.

(** ** JavaScript values *)

Module JS.

(** A JavaScript number. Finite values are idealised as rationals; the
    code below only tests numbers for truthiness, compares them and
    passes them on. *)
Inductive number : Type :=
| NaN
| Infinity (negative : bool)
| Num (q : Q).

Inductive jsval : Type :=
| JUndefined
| JNull
| JBool (b : bool)
| JNum (n : number)
| JStr (s : string)
| JArr (items : list jsval)
| JObj (props : list (string * jsval)).

Definition of_Z (z : Z) : jsval := JNum (Num (inject_Z z)).

(** [ToBoolean]: what [!v], [v && w] and [v || w] test. *)
Definition truthy (v : jsval) : bool :=
  match v with
  | JUndefined | JNull => false
  | JBool b => b
  | JNum NaN => false
  | JNum (Infinity _) => true
  | JNum (Num q) => negb (Qeq_bool q 0)
  | JStr s => negb (String.eqb s "")
  | JArr _ | JObj _ => true
  end.

(** [v || w] *)
Definition js_or (v w : jsval) : jsval := if truthy v then v else w.

(** [v === 'lit'] for a string literal. *)
Definition is_str (v : jsval) (lit : string) : bool :=
  match v with
  | JStr s => String.eqb s lit
  | _ => false
  end.

(** [v === 0] *)
Definition is_zero (v : jsval) : bool :=
  match v with
  | JNum (Num q) => Qeq_bool q 0
  | _ => false
  end.

(** Own property of an object literal or of a parsed JSON object; the
    first binding of a key is the one in effect. *)
Fixpoint assoc (k : string) (props : list (string * jsval)) : jsval :=
  match props with
  | [] => JUndefined
  | (k', v) :: rest => if String.eqb k k' then v else assoc k rest
  end.

(** [JSON.stringify(v)], kept as the value that [JSON.parse] reads back
    from the text, and [None] where there is no text ([undefined]). A
    number that is not finite is written [null]; in an array [undefined]
    is written [null]; a property whose value is [undefined] is left
    out. *)
Fixpoint serialise (v : jsval) : option jsval :=
  match v with
  | JUndefined => None
  | JNull => Some JNull
  | JBool b => Some (JBool b)
  | JNum (Num q) => Some (JNum (Num q))
  | JNum _ => Some JNull
  | JStr s => Some (JStr s)
  | JArr items =>
      Some (JArr (List.map (fun x => match serialise x with
                                     | Some y => y
                                     | None => JNull
                                     end) items))
  | JObj props =>
      Some (JObj ((fix members (ps : list (string * jsval)) :=
                     match ps with
                     | [] => []
                     | (k, x) :: rest =>
                         match serialise x with
                         | Some y => (k, y) :: members rest
                         | None => members rest
                         end
                     end) props))
  end.

(** The properties of a serialised object. *)
Fixpoint members (ps : list (string * jsval)) : list (string * jsval) :=
  match ps with
  | [] => []
  | (k, x) :: rest =>
      match serialise x with
      | Some y => (k, y) :: members rest
      | None => members rest
      end
  end.

(** [Object.is(old, new)] for a [new] value that has just been parsed
    from JSON: an array or an object is then a new one, and the same as
    nothing that was there before. *)
Definition same_value (old new : jsval) : bool :=
  match old, new with
  | JUndefined, JUndefined | JNull, JNull => true
  | JBool a, JBool b => Bool.eqb a b
  | JNum NaN, JNum NaN => true
  | JNum (Infinity a), JNum (Infinity b) => Bool.eqb a b
  | JNum (Num a), JNum (Num b) => Qeq_bool a b
  | JStr a, JStr b => String.eqb a b
  | _, _ => false
  end.

(** Errors a handler can raise. Every [catch] in the sources ignores
    which one it caught. *)
Inductive exn : Type :=
| TypeError
| SyntaxError
| RangeError
| NetworkError
| Error (msg : string).

Inductive outcome (A : Type) : Type :=
| Ret (a : A)
| Throw (e : exn).
Arguments Ret {A} a.
Arguments Throw {A} e.

(** [v.k] for the property names the sources read ([url], [format_id],
    [detail], [status], [progress], ...): a [TypeError] on [undefined]
    and [null], the own property on an object, [undefined] on the other
    values, which have no property of these names. *)
Definition get (v : jsval) (k : string) : outcome jsval :=
  match v with
  | JUndefined | JNull => Throw TypeError
  | JObj props => Ret (assoc k props)
  | _ => Ret JUndefined
  end.

(** [s.split(sep)] for a one-character separator. *)
Fixpoint split (sep : Ascii.ascii) (s : string) : list string :=
  match s with
  | EmptyString => [EmptyString]
  | String c rest =>
      if Ascii.eqb c sep then EmptyString :: split sep rest
      else match split sep rest with
           | [] => [String c EmptyString]
           | w :: ws => String c w :: ws
           end
  end.

End JS.
Export JS.

(** ** Handlers as computations

    An [async] handler body is a computation that returns or throws and
    that records, in order, the HTTP requests it sends. [await] is
    sequencing; a rejected promise is a thrown error. *)

Module Async.

Section WithLog.
(** The type of a logged request. *)
Context {L : Type}.

Definition M (A : Type) : Type := outcome A * list L.

Definition ret {A} (a : A) : M A := (Ret a, []).
Definition throw {A} (e : exn) : M A := (Throw e, []).
Definition lift {A} (o : outcome A) : M A := (o, []).
Definition tell (l : L) : M unit := (Ret tt, [l]).

Definition bind {A B} (m : M A) (k : A -> M B) : M B :=
  match m with
  | (Ret a, log) => let '(r, log') := k a in (r, log ++ log')
  | (Throw e, log) => (Throw e, log)
  end.

(** [try { body } catch (error) { handler }] *)
Definition try_catch {A} (body : M A) (handler : exn -> M A) : M A :=
  match body with
  | (Ret a, log) => (Ret a, log)
  | (Throw e, log) => let '(r, log') := handler e in (r, log ++ log')
  end.

Definition result {A} (m : M A) : outcome A := fst m.
Definition sent {A} (m : M A) : list L := snd m.
End WithLog.

Arguments M : clear implicits.

End Async.
Import Async.

Declare Scope async_scope.
Delimit Scope async_scope with async.
Notation "'let*' x ':=' m 'in' k" := (bind m (fun x => k))
  (at level 10, x name, m at level 100, k at level 200) : async_scope.
Notation "m ';;' k" := (bind m (fun _ => k))
  (at level 100, k at level 200, right associativity) : async_scope.
Local Open Scope async_scope.

(** ** The HTTP layer of a route handler *)

Module Http.

(** What the route sends to the Python backend with [fetch]. *)
Record BackendRequest : Type := mkBackendRequest {
  endpoint : string;
  method : string;
  payload : jsval            (* the object given to [JSON.stringify] *)
}.

(** What [fetch] resolves to. *)
Record FetchResponse : Type := mkFetchResponse {
  fr_status : Z;
  fr_json : outcome jsval;         (* [await response.json()] *)
  fr_blob : outcome (list Byte.byte)   (* [await response.blob()] *)
}.

(** [response.ok] *)
Definition ok (r : FetchResponse) : bool :=
  (200 <=? fr_status r) && (fr_status r <=? 299).

(** The backend as the route sees it: each request resolves to a response
    or rejects. *)
Definition Backend : Type := BackendRequest -> outcome FetchResponse.

Definition fetch (backend : Backend) (rq : BackendRequest)
  : M BackendRequest FetchResponse :=
  (tell rq ;; lift (backend rq))%async.

(** The incoming request: the outcome of [await request.json()]. *)
Record NextRequest : Type := mkNextRequest {
  request_json : outcome jsval
}.

Inductive Body : Type :=
| JsonBody (data : jsval)
| BlobBody (blob : list Byte.byte).

Record NextResponse : Type := mkNextResponse {
  status : Z;
  headers : list (string * string);
  body : Body
}.

(** Statuses that the [Response] constructor refuses together with a
    body. *)
Definition null_body_status (s : Z) : bool :=
  (s =? 101) || (s =? 103) || (s =? 204) || (s =? 205) || (s =? 304).

Definition valid_status (s : Z) : bool :=
  (200 <=? s) && (s <=? 599) && negb (null_body_status s).

(** [NextResponse.json(data, { status })]. It throws on a value that has
    no JSON text, and the constructor throws on a status outside 200..599
    or on a null-body status. The body is kept as the value handed over;
    what a client reads from it is its serialisation (see [Wire]). *)
Definition NextResponse_json {L} (data : jsval) (s : Z) : M L NextResponse :=
  match serialise data with
  | None => throw TypeError
  | Some _ =>
      if valid_status s
      then ret {| status := s;
                  headers := [("content-type", "application/json")];
                  body := JsonBody data |}
      else throw RangeError
  end.

Fixpoint all_bytes (p : ascii -> bool) (s : string) : bool :=
  match s with
  | EmptyString => true
  | String c rest => p c && all_bytes p rest
  end.

(** HTTP whitespace: tab, LF, CR and space. *)
Definition http_blank (c : ascii) : bool :=
  let n := N_of_ascii c in
  ((n =? 9) || (n =? 10) || (n =? 13) || (n =? 32))%N.

Fixpoint trim_start (s : string) : string :=
  match s with
  | EmptyString => EmptyString
  | String c rest => if http_blank c then trim_start rest else s
  end.

Fixpoint trim_end (s : string) : string :=
  match s with
  | EmptyString => EmptyString
  | String c rest =>
      match trim_end rest with
      | EmptyString =>
          if http_blank c then EmptyString else String c EmptyString
      | kept => String c kept
      end
  end.

(** The [Headers] constructor strips HTTP whitespace from both ends of a
    value. *)
Definition normalize (value : string) : string :=
  trim_end (trim_start value).

(** A header value is a [ByteString]: no character beyond U+00FF, whose
    encoding begins with a byte from 196 on. *)
Definition latin1 (c : ascii) : bool := (N_of_ascii c <? 196)%N.

(** A normalised header value holds no NUL, LF or CR. *)
Definition header_byte (c : ascii) : bool :=
  let n := N_of_ascii c in
  (negb (n =? 0) && negb (n =? 10) && negb (n =? 13))%N.

(** The header values that [new Headers(init)] takes; it throws a
    [TypeError] on the others. *)
Definition header_value (value : string) : bool :=
  all_bytes latin1 value && all_bytes header_byte (normalize value).

(** [new NextResponse(blob, { headers })]; the status defaults to 200. *)
Definition NextResponse_blob {L} (blob : list Byte.byte)
    (hs : list (string * string)) : M L NextResponse :=
  if forallb (fun h => header_value (snd h)) hs
  then ret {| status := 200;
              headers := List.map (fun h => (fst h, normalize (snd h))) hs;
              body := BlobBody blob |}
  else throw TypeError.
Arguments NextResponse_blob : simpl never.

Definition error_body (msg : jsval) : jsval := JObj [("error", msg)].

(** The status of the response a handler returned, if it returned. *)
Definition status_of {L} (m : M L NextResponse) : option Z :=
  match result m with
  | Ret r => Some (status r)
  | Throw _ => None
  end.

End Http.
Import Http.

(** ** [app/api/download-simple/route.ts] *)

Module DownloadSimpleRoute.

Definition backend_call (url : jsval) : BackendRequest :=
  {| endpoint := "http://localhost:8000/download-simple";
     method := "POST";
     payload := JObj [("url", url)] |}.

Definition POST (backend : Backend) (request : NextRequest)
  : M BackendRequest NextResponse :=
  try_catch
    (let* data := lift (request_json request) in
     let* url := lift (get data "url") in
     if negb (truthy url) then
       NextResponse_json (error_body (JStr "URL is required")) 400
     else
       let* response := fetch backend (backend_call url) in
       if negb (ok response) then
         let* errorData := lift (fr_json response) in
         let* detail := lift (get errorData "detail") in
         NextResponse_json
           (error_body (js_or detail (JStr "Download failed")))
           (fr_status response)
       else
         let* data := lift (fr_json response) in
         NextResponse_json data 200)
    (fun _ => NextResponse_json (error_body (JStr "Download failed")) 500).

End DownloadSimpleRoute.

(** ** [app/api/video-info/route.ts] *)

Module VideoInfoRoute.

Definition backend_call (url : jsval) : BackendRequest :=
  {| endpoint := "http://localhost:8000/video-info";
     method := "POST";
     payload := JObj [("url", url)] |}.

Definition POST (backend : Backend) (request : NextRequest)
  : M BackendRequest NextResponse :=
  try_catch
    (let* data := lift (request_json request) in
     let* url := lift (get data "url") in
     if negb (truthy url) then
       NextResponse_json (error_body (JStr "URL is required")) 400
     else
       let* response := fetch backend (backend_call url) in
       if negb (ok response) then
         throw (Error "Failed to fetch video info from backend")
       else
         let* data := lift (fr_json response) in
         NextResponse_json data 200)
    (fun _ =>
       NextResponse_json
         (error_body (JStr "Failed to fetch video information")) 500).

End VideoInfoRoute.

(** ** The format-download route handler (second handler of the
    video-info source file; the page posts to it as [/api/download]) *)

Module DownloadRoute.

Definition backend_call (url format_id : jsval) : BackendRequest :=
  {| endpoint := "http://localhost:8000/download";
     method := "POST";
     payload := JObj [("url", url); ("format_id", format_id)] |}.

(** [s.split('-')[1] || 'mp4'] for a string [s]. *)
Definition second_segment_or_mp4 (s : string) : string :=
  match split "-"%char s !! 1%nat with
  | Some segment => if String.eqb segment "" then "mp4" else segment
  | None => "mp4"
  end.

(** [format_id.split('-')[1] || 'mp4']. Calling [split] on a value that
    is not a string is a [TypeError]. *)
Definition extension (format_id : jsval) : outcome string :=
  match format_id with
  | JStr s => Ret (second_segment_or_mp4 s)
  | _ => Throw TypeError
  end.

Definition dquote : string := String (ascii_of_nat 34) EmptyString.

(** The template literal of the [Content-Disposition] header. *)
Definition content_disposition (ext : string) : string :=
  "attachment; filename=" +:+ dquote +:+ "video." +:+ ext +:+ dquote.

Definition POST (backend : Backend) (request : NextRequest)
  : M BackendRequest NextResponse :=
  try_catch
    (let* data := lift (request_json request) in
     let* url := lift (get data "url") in
     let* format_id := lift (get data "format_id") in
     if negb (truthy url) || negb (truthy format_id) then
       NextResponse_json
         (error_body (JStr "URL and format_id are required")) 400
     else
       let* response := fetch backend (backend_call url format_id) in
       if negb (ok response) then
         throw (Error "Download failed")
       else
         let* blob := lift (fr_blob response) in
         let* ext := lift (extension format_id) in
         NextResponse_blob blob
           [("Content-Type", "application/octet-stream");
            ("Content-Disposition", content_disposition ext)])
    (fun _ => NextResponse_json (error_body (JStr "Download failed")) 500).

End DownloadRoute.

(** ** [app/page.tsx]: state, handlers and the progress-stream effect *)

Module Page.

(** [interface DownloadProgress]. At run time a field holds whatever the
    JSON it was copied from carried; an absent field is [undefined]. *)
Record DownloadProgress : Type := mkDownloadProgress {
  status : jsval;
  percentage : jsval;
  filename : jsval;
  error : jsval;
  download_id : jsval;
  message : jsval;
  speed : jsval;
  eta : jsval
}.

(** One entry of [VideoInfo.formats]. *)
Record Format : Type := mkFormat {
  format_id : string;
  ext : string;
  resolution : string;
  filesize : jsval;
  vcodec : string;
  acodec : string
}.

(** The component state the handlers read. [videoInfo] is [null] until a
    lookup stores the parsed response. *)
Record State : Type := mkState {
  url : string;
  videoInfo : jsval;
  selectedFormat : string;
  downloadProgress : option DownloadProgress
}.

(** A request of the page, to a route or to the backend. *)
Record ClientRequest : Type := mkClientRequest {
  path : string;
  verb : string;
  sent_body : jsval
}.

Record ClientResponse : Type := mkClientResponse {
  cr_ok : bool;                 (* [response.ok] *)
  cr_json : outcome jsval       (* [await response.json()] *)
}.

Definition Server : Type := ClientRequest -> outcome ClientResponse.

(** What a handler does to the outside, in order. *)
Inductive Action : Type :=
| Fetch (rq : ClientRequest)
| SetDownloadProgress (dp : option DownloadProgress)
| CloseEventSource.

Definition fetch (server : Server) (rq : ClientRequest)
  : M Action ClientResponse :=
  tell (Fetch rq) ;; lift (server rq).

Definition setDownloadProgress (dp : option DownloadProgress)
  : M Action unit :=
  tell (SetDownloadProgress dp).

Definition close : M Action unit := tell CloseEventSource.

(** The function the effect returns: [() => { eventSource.close(); }]. *)
Definition cleanup : M Action unit := close.

Definition post (p : string) (b : jsval) : ClientRequest :=
  {| path := p; verb := "POST"; sent_body := b |}.

(** [{ status: 'downloading', percentage: 0 }] *)
Definition fresh_download : DownloadProgress :=
  {| status := JStr "downloading"; percentage := of_Z 0;
     filename := JUndefined; error := JUndefined;
     download_id := JUndefined; message := JUndefined;
     speed := JUndefined; eta := JUndefined |}.

(** [{ status: 'downloading', download_id: id, percentage: 0 }] *)
Definition started (id : jsval) : DownloadProgress :=
  {| status := JStr "downloading"; percentage := of_Z 0;
     filename := JUndefined; error := JUndefined;
     download_id := id; message := JUndefined;
     speed := JUndefined; eta := JUndefined |}.

(** [{ status: 'error', error: 'Download failed. Please try again.' }] *)
Definition request_failed : DownloadProgress :=
  {| status := JStr "error"; percentage := JUndefined;
     filename := JUndefined;
     error := JStr "Download failed. Please try again.";
     download_id := JUndefined; message := JUndefined;
     speed := JUndefined; eta := JUndefined |}.

Definition str_truthy (s : string) : bool := truthy (JStr s).

(** What [downloadVideo] does with the parsed response [data] once the
    request has returned (the three [if]s that follow
    [await response.json()]). *)
Definition on_submission_response (data : jsval) : M Action unit :=
  let* msg := lift (get data "message") in
  if is_str msg "Download task already exists" then
    let* id := lift (get data "download_id") in
    let* progress := lift (get data "progress") in
    setDownloadProgress
      (Some {| status := JStr "exists";
               message := JStr "Download task already exists";
               download_id := id;
               percentage := progress;
               filename := JUndefined; error := JUndefined;
               speed := JUndefined; eta := JUndefined |})
  else
    let* s := lift (get data "status") in
    if is_str s "failed" then
      let* e := lift (get data "error") in
      let* id := lift (get data "download_id") in
      setDownloadProgress
        (Some {| status := JStr "error";
                 error := js_or e (JStr "Download failed");
                 download_id := id;
                 percentage := JUndefined; filename := JUndefined;
                 message := JUndefined;
                 speed := JUndefined; eta := JUndefined |})
    else
      let* id := lift (get data "download_id") in
      if truthy id then setDownloadProgress (Some (started id))
      else ret tt.
Arguments on_submission_response : simpl never.

Definition downloadVideo (server : Server) (st : State) : M Action unit :=
  if negb (str_truthy (selectedFormat st)) || negb (truthy (videoInfo st))
  then ret tt
  else
    setDownloadProgress (Some fresh_download) ;;
    try_catch
      (let* response :=
         fetch server
           (post "/api/download"
              (JObj [("url", JStr (url st));
                     ("format_id", JStr (selectedFormat st))])) in
       let* data := lift (cr_json response) in
       on_submission_response data)
      (fun _ => setDownloadProgress (Some request_failed)).

(** The common body of [downloadFallback], [downloadAlternative] and
    [downloadSimple], which differ in the route they post to. *)
Definition download_by_route (route : string) (server : Server) (st : State)
  : M Action unit :=
  if negb (truthy (videoInfo st)) then ret tt
  else
    setDownloadProgress (Some fresh_download) ;;
    try_catch
      (let* response :=
         fetch server (post route (JObj [("url", JStr (url st))])) in
       let* data := lift (cr_json response) in
       let* id := lift (get data "download_id") in
       if truthy id then setDownloadProgress (Some (started id))
       else ret tt)
      (fun _ => setDownloadProgress (Some request_failed)).

Definition downloadFallback := download_by_route "/api/download-fallback".
Definition downloadAlternative :=
  download_by_route "/api/download-alternative".
Definition downloadSimple := download_by_route "/api/download-simple".

Definition cancelDownload (server : Server) (downloadId : string)
  : M Action unit :=
  try_catch
    (let* response :=
       fetch server
         {| path := "http://localhost:8000/downloads/" +:+ downloadId;
            verb := "DELETE"; sent_body := JUndefined |} in
     if cr_ok response then setDownloadProgress None else ret tt)
    (fun _ => ret tt).

(** The guard of the effect: a stream is opened only for a state with a
    truthy [download_id] and the status ['downloading']. *)
Definition subscribes (dp : option DownloadProgress) : bool :=
  match dp with
  | Some p => truthy (download_id p) && is_str (status p) "downloading"
  | None => false
  end.

(** [eventSource.onmessage]. [captured] is the [downloadProgress] of the
    render that ran the effect, [parsed] the outcome of
    [JSON.parse(event.data)]. *)
Definition onmessage (captured : DownloadProgress) (parsed : outcome jsval)
  : M Action unit :=
  try_catch
    (let* progressData := lift parsed in
     let* s := lift (get progressData "status") in
     if is_str s "keepalive" then ret tt
     else
       let* progress := lift (get progressData "progress") in
       let* id := lift (get progressData "download_id") in
       let* file := lift (get progressData "filename") in
       let* e := lift (get progressData "error") in
       let* sp := lift (get progressData "speed") in
       let* et := lift (get progressData "eta") in
       setDownloadProgress
         (Some {| status := if is_str s "failed" then JStr "error" else s;
                  percentage := progress;
                  download_id := js_or id (download_id captured);
                  filename := file;
                  error := e;
                  speed := sp;
                  eta := et;
                  message := JUndefined |}) ;;
       if is_str s "completed" then close
       else if is_str s "failed" then close
       else if is_str s "cancelled" then
         close ;; setDownloadProgress None
       else ret tt)
    (fun _ => ret tt).

(** The part of the page a trace of actions changes: the progress state
    and whether the event source is still open. *)
Record View : Type := mkView {
  progress_state : option DownloadProgress;
  stream_open : bool
}.

Definition step (v : View) (a : Action) : View :=
  match a with
  | Fetch _ => v
  | SetDownloadProgress dp =>
      {| progress_state := dp; stream_open := stream_open v |}
  | CloseEventSource =>
      {| progress_state := progress_state v; stream_open := false |}
  end.

Definition run (v : View) (trace : list Action) : View :=
  fold_left step trace v.

Fixpoint fetched (trace : list Action) : list string :=
  match trace with
  | [] => []
  | Fetch rq :: rest => path rq :: fetched rest
  | _ :: rest => fetched rest
  end.

Fixpoint updates (trace : list Action) : list (option DownloadProgress) :=
  match trace with
  | [] => []
  | SetDownloadProgress dp :: rest => dp :: updates rest
  | _ :: rest => updates rest
  end.

(** Whether the state that [onmessage] leaves behind has another
    [downloadProgress?.download_id], the dependency of the effect, than
    the render that ran the effect. A message that is passed over sets no
    state. ['cancelled'] leaves [null], whose id reads [undefined]. Every
    other message sets [progressData.download_id ||
    downloadProgress.download_id]: the captured id itself unless the
    message has a truthy id of its own. *)
Definition changes_dependency (captured : DownloadProgress)
    (parsed : outcome jsval) : bool :=
  match parsed with
  | Ret (JObj props) =>
      let s := assoc "status" props in
      let id := assoc "download_id" props in
      if is_str s "keepalive" then false
      else if is_str s "cancelled"
           then negb (same_value (download_id captured) JUndefined)
           else truthy id && negb (same_value (download_id captured) id)
  | _ => false
  end.

(** One message of the stream: [onmessage] runs, and when the dependency
    of the effect has changed React runs the cleanup of the effect, which
    closes the event source, before it runs the effect again for the new
    state. *)
Definition deliver (captured : DownloadProgress) (parsed : outcome jsval)
  : list Action :=
  sent (onmessage captured parsed)
  ++ (if changes_dependency captured parsed then sent cleanup else []).

(** The event source delivers the messages of the stream, in order, for
    as long as it is open. A stream that the effect opens afterwards, for
    another id, is another event source with messages of its own. *)
Fixpoint receive (captured : DownloadProgress) (events : list (outcome jsval))
    (v : View) : list Action :=
  match events with
  | [] => []
  | parsed :: rest =>
      if stream_open v then
        let trace := deliver captured parsed in
        trace ++ receive captured rest (run v trace)
      else []
  end.

(** The view right after the effect has opened a stream for [captured]. *)
Definition subscribed (captured : DownloadProgress) : View :=
  {| progress_state := Some captured; stream_open := true |}.

Definition sizes : list string := ["Bytes"; "KB"; "MB"; "GB"].

Section FormatFileSize.
(** The floating-point part of [formatFileSize] is taken as given:
    [unit_index bytes] is
    [parseInt(Math.floor(Math.log(bytes) / Math.log(1024)).toString())],
    with [None] for [NaN], and [scaled bytes i] is the text of
    [Math.round(bytes / Math.pow(1024, i) * 100) / 100]. *)
Variable unit_index : jsval -> option Z.
Variable scaled : jsval -> option Z -> string.

(** [sizes[i]] inside a string concatenation: an index that is not one
    of 0..3 reads [undefined]. *)
Definition size_name (i : option Z) : string :=
  match i with
  | Some z =>
      if z <? 0 then "undefined"
      else match sizes !! Z.to_nat z with
           | Some name => name
           | None => "undefined"
           end
  | None => "undefined"
  end.

Definition formatFileSize (bytes : jsval) : string :=
  if negb (truthy bytes) then "Unknown size"
  else if is_zero bytes then "0 Byte"
  else
    let i := unit_index bytes in
    scaled bytes i +:+ " " +:+ size_name i.
End FormatFileSize.

End Page.

(** * The task orchestrator

    The page talks to a Python backend (task registry, worker, progress
    broker) whose code is not among the sources. What follows models the
    cancellation that the page asks for from its description in the
    specification. *)

Module Orchestrator.

(** Modelled from the spec: the backend's task states (section 3, "state:
    one of Queued, Running, Completed, Failed, Cancelled"); the backend
    is missing from the sources. *)
Inductive TaskState : Type :=
| Queued | Running | Completed | Failed | Cancelled.

(** Modelled from the spec: the backend's terminal states (glossary:
    "Completed, Failed, Cancelled"). *)
Definition terminal (s : TaskState) : bool :=
  match s with
  | Completed | Failed | Cancelled => true
  | Queued | Running => false
  end.

(** Modelled from the spec: the backend's Task record (section 3), with
    the cancellation token that [Cancel] signals (section 4.2). *)
Record Task : Type := mkTask {
  sourceURL : string;
  qualitySelector : string;
  state : TaskState;
  progressPercent : Q;
  attempt : nat;
  cancelRequested : bool
}.

(** Modelled from the spec: the answers of the backend's [Cancel]
    (section 4.2, "ok | NotFound | AlreadyTerminal"). *)
Inductive CancelResult : Type :=
| CancelOk | NotFound | AlreadyTerminal.

(** Modelled from the spec: the backend registry's [Cancel(id)] (section
    4.2): "Marks state Cancelled and signals the Worker's cancellation
    token"; an unknown id is [NotFound], a terminal task
    [AlreadyTerminal]. The registry maps task ids to tasks. *)
Definition Cancel (id : string) (registry : gmap string Task)
  : CancelResult * gmap string Task :=
  match registry !! id with
  | None => (NotFound, registry)
  | Some t =>
      if terminal (state t) then (AlreadyTerminal, registry)
      else (CancelOk,
            <[id := {| sourceURL := sourceURL t;
                       qualitySelector := qualitySelector t;
                       state := Cancelled;
                       progressPercent := progressPercent t;
                       attempt := attempt t;
                       cancelRequested := true |}]> registry)
  end.

End Orchestrator.

(** * The rest of [app/page.tsx] *)

(** ** [fetchVideoInfo] *)

Module Lookup.

(** What [fetchVideoInfo] does to the outside, in order. *)
Inductive Action : Type :=
| Fetch (rq : Page.ClientRequest)
| SetLoading (b : bool)
| SetError (msg : string)
| SetVideoInfo (v : jsval).

Definition fetch (server : Page.Server) (rq : Page.ClientRequest)
  : M Action Page.ClientResponse :=
  tell (Fetch rq) ;; lift (server rq).

Definition setLoading (b : bool) : M Action unit := tell (SetLoading b).
Definition setError (msg : string) : M Action unit := tell (SetError msg).
Definition setVideoInfo (v : jsval) : M Action unit := tell (SetVideoInfo v).

(** [try { body } finally { cleanup }]: the cleanup runs whatever the
    body did; the statement ends as the body did unless the cleanup
    throws. *)
Definition finally {L A} (body : M L A) (cleanup : M L unit) : M L A :=
  let '(r, log) := body in
  match cleanup with
  | (Ret _, log') => (r, log ++ log')
  | (Throw e, log') => (Throw e, log ++ log')
  end.

Definition request (url : string) : Page.ClientRequest :=
  Page.post "/api/video-info" (JObj [("url", JStr url)]).

Definition fetchVideoInfo (server : Page.Server) (url : string)
  : M Action unit :=
  if negb (Page.str_truthy url) then
    setError "Please enter a YouTube URL"
  else
    setLoading true ;;
    setError "" ;;
    setVideoInfo JNull ;;
    finally
      (try_catch
         (let* response := fetch server (request url) in
          if negb (Page.cr_ok response) then
            throw (Error "Failed to fetch video information")
          else
            let* data := lift (Page.cr_json response) in
            setVideoInfo data)
         (fun _ =>
            setError
              "Failed to fetch video information. Please check the URL and try again."))
      (setLoading false).

(** The three pieces of state [fetchVideoInfo] writes. *)
Record Status : Type := mkStatus {
  loading : bool;
  error : string;
  videoInfo : jsval
}.

Definition step (s : Status) (a : Action) : Status :=
  match a with
  | Fetch _ => s
  | SetLoading b =>
      {| loading := b; error := error s; videoInfo := videoInfo s |}
  | SetError msg =>
      {| loading := loading s; error := msg; videoInfo := videoInfo s |}
  | SetVideoInfo v =>
      {| loading := loading s; error := error s; videoInfo := v |}
  end.

Definition run (s : Status) (trace : list Action) : Status :=
  fold_left step trace s.

Fixpoint fetched (trace : list Action) : list Page.ClientRequest :=
  match trace with
  | [] => []
  | Fetch rq :: rest => rq :: fetched rest
  | _ :: rest => fetched rest
  end.

End Lookup.

(** ** [getQualityColor] *)

Module Quality.

(** [s.includes(sub)] *)
Fixpoint includes (sub s : string) : bool :=
  String.prefix sub s
  || match s with
     | EmptyString => false
     | String _ rest => includes sub rest
     end.

Definition getQualityColor (resolution : string) : string :=
  if includes "2160" resolution || includes "4K" resolution then
    "bg-purple-100 text-purple-800 border-purple-200"
  else if includes "1440" resolution then
    "bg-blue-100 text-blue-800 border-blue-200"
  else if includes "1080" resolution then
    "bg-green-100 text-green-800 border-green-200"
  else if includes "720" resolution then
    "bg-yellow-100 text-yellow-800 border-yellow-200"
  else if includes "480" resolution then
    "bg-orange-100 text-orange-800 border-orange-200"
  else "bg-gray-100 text-gray-800 border-gray-200".

End Quality.

(** ** The effect and what is rendered *)

Module Render.

(** The id the effect puts into the URL of the event source it opens
    ([http://localhost:8000/download-progress/<id>]), if it opens one. *)
Definition stream_target (dp : option Page.DownloadProgress)
  : option jsval :=
  match dp with
  | Some p => if Page.subscribes dp then Some (Page.download_id p) else None
  | None => None
  end.

(** [eventSource.onerror] *)
Definition onerror : M Page.Action unit := Page.close.

(** [downloadProgress?.status === 'downloading'] *)
Definition downloading (dp : option Page.DownloadProgress) : bool :=
  match dp with
  | Some p => is_str (Page.status p) "downloading"
  | None => false
  end.

(** [disabled] of the button that calls [downloadVideo]. *)
Definition download_disabled (st : Page.State) : bool :=
  negb (Page.str_truthy (Page.selectedFormat st))
  || downloading (Page.downloadProgress st).

(** [disabled] of the three buttons that call [downloadAlternative],
    [downloadFallback] and [downloadSimple]. *)
Definition tier_disabled (st : Page.State) : bool :=
  negb (truthy (Page.videoInfo st))
  || downloading (Page.downloadProgress st).

(** The blocks of the progress area, top to bottom. *)
Inductive Panel : Type :=
| DownloadingCard
| ExistsAlert
| CompletedAlert
| ErrorAlert.

(** [{downloadProgress && ( ... )}]: each block is rendered under its own
    test of the status. *)
Definition panels (dp : option Page.DownloadProgress) : list Panel :=
  match dp with
  | None => []
  | Some p =>
      (if is_str (Page.status p) "downloading" then [DownloadingCard] else [])
      ++ (if is_str (Page.status p) "exists" then [ExistsAlert] else [])
      ++ (if is_str (Page.status p) "completed" then [CompletedAlert] else [])
      ++ (if is_str (Page.status p) "error" then [ErrorAlert] else [])
  end.

(** The retry button inside the error alert:
    [{downloadProgress.download_id && ( ... )}]. *)
Definition retry_shown (p : Page.DownloadProgress) : bool :=
  is_str (Page.status p) "error" && truthy (Page.download_id p).

Section Clicks.
(** The string conversion of a template literal, for an id that is not a
    string. *)
Variable interpolate : jsval -> string.

Definition id_text (id : jsval) : string :=
  match id with
  | JStr s => s
  | v => interpolate v
  end.

(** [onClick] of the cancel button:
    [downloadProgress.download_id && cancelDownload(download_id)]. *)
Definition cancel_click (server : Page.Server) (p : Page.DownloadProgress)
  : M Page.Action unit :=
  if truthy (Page.download_id p)
  then Page.cancelDownload server (id_text (Page.download_id p))
  else ret tt.
End Clicks.

End Render.

(** ** The page in front of the routes *)

Module Wire.

(** What [response.json()] and [request.json()] read from a body that
    was written with [JSON.stringify]; no text does not parse. *)
Definition read_back (data : jsval) : outcome jsval :=
  match serialise data with
  | Some v => Ret v
  | None => Throw SyntaxError
  end.

(** The body the page sends with [JSON.stringify] is what the route reads
    with [request.json()]. *)
Definition as_request (rq : Page.ClientRequest) : NextRequest :=
  {| request_json := read_back (Page.sent_body rq) |}.

Section Parse.
(** [response.json()] on the bytes of a blob. *)
Variable parse : list Byte.byte -> outcome jsval.

(** What the page's [fetch] resolves to for the answer of a route: a
    JSON body arrives as its serialisation, a blob as its bytes. An error
    that a handler does not catch is answered by the framework with
    status 500 and a body that is not JSON. *)
Definition as_response (answer : M BackendRequest NextResponse)
  : outcome Page.ClientResponse :=
  match result answer with
  | Ret resp =>
      Ret {| Page.cr_ok := (200 <=? status resp) && (status resp <=? 299);
             Page.cr_json := match body resp with
                             | JsonBody data => read_back data
                             | BlobBody blob => parse blob
                             end |}
  | Throw _ =>
      Ret {| Page.cr_ok := false; Page.cr_json := Throw SyntaxError |}
  end.

(** The routes of the application by path; [others] stands for the
    routes that are not modelled here. *)
Definition app (backend : Backend) (others : Page.Server) : Page.Server :=
  fun rq =>
    if String.eqb (Page.path rq) "/api/download-simple" then
      as_response (DownloadSimpleRoute.POST backend (as_request rq))
    else if String.eqb (Page.path rq) "/api/video-info" then
      as_response (VideoInfoRoute.POST backend (as_request rq))
    else if String.eqb (Page.path rq) "/api/download" then
      as_response (DownloadRoute.POST backend (as_request rq))
    else others rq.
End Parse.

End Wire.

(** * Vocabulary of the statements *)

(** ** Responses of the routes *)

Definition json_response (s : Z) (data : jsval) : NextResponse :=
  {| status := s;
     headers := [("content-type", "application/json")];
     body := JsonBody data |}.

Definition bad_request (msg : string) : NextResponse :=
  json_response 400 (error_body (JStr msg)).

Definition attachment (blob : list Byte.byte) (extension : string)
  : NextResponse :=
  {| status := 200;
     headers := [("Content-Type", "application/octet-stream");
                 ("Content-Disposition",
                  DownloadRoute.content_disposition extension)];
     body := BlobBody blob |}.

(** Every byte of [e] may stand in a header value: [e] has no character
    beyond U+00FF and no NUL, LF or CR. *)
Definition header_safe (e : string) : bool :=
  all_bytes latin1 e && all_bytes header_byte e.

(** [e] is made of characters from U+0020 to U+00FF other than
    U+007F. *)
Definition printable_byte (c : ascii) : bool :=
  let n := N_of_ascii c in
  ((32 <=? n) && negb (n =? 127) && (n <? 196))%N.

Definition printable (e : string) : bool := all_bytes printable_byte e.

Definition download_failed : NextResponse :=
  json_response 500 (error_body (JStr "Download failed")).

(** The ways the call to the backend can fail: the request is rejected
    (network error), the response is not OK, or its body is not JSON. *)
Inductive backend_fails : outcome FetchResponse -> Prop :=
| network_error e : backend_fails (Throw e)
| response_not_ok r : ok r = false -> backend_fails (Ret r)
| malformed_json r e :
    ok r = true -> fr_json r = Throw e -> backend_fails (Ret r).

Fixpoint no_dash (s : string) : bool :=
  match s with
  | EmptyString => true
  | String c rest => negb (Ascii.eqb c "-") && no_dash rest
  end.

Fixpoint last_char (s : string) : option ascii :=
  match s with
  | EmptyString => None
  | String c EmptyString => Some c
  | String _ rest => last_char rest
  end.

(** ** States of the page *)

(** The request [downloadVideo] sends. *)
Definition submission (st : Page.State) : Page.ClientRequest :=
  Page.post "/api/download"
    (JObj [("url", JStr (Page.url st));
           ("format_id", JStr (Page.selectedFormat st))]).

(** [{ status: 'exists', message: ..., download_id, percentage }] *)
Definition existing (id progress : jsval) : Page.DownloadProgress :=
  {| Page.status := JStr "exists";
     Page.message := JStr "Download task already exists";
     Page.download_id := id;
     Page.percentage := progress;
     Page.filename := JUndefined; Page.error := JUndefined;
     Page.speed := JUndefined; Page.eta := JUndefined |}.

(** The state [onmessage] sets for an event with the properties [props]
    and the status [s]. *)
Definition shown (captured : Page.DownloadProgress)
    (props : list (string * jsval)) (s : jsval) : Page.DownloadProgress :=
  {| Page.status := if is_str s "failed" then JStr "error" else s;
     Page.percentage := assoc "progress" props;
     Page.download_id :=
       js_or (assoc "download_id" props) (Page.download_id captured);
     Page.filename := assoc "filename" props;
     Page.error := assoc "error" props;
     Page.speed := assoc "speed" props;
     Page.eta := assoc "eta" props;
     Page.message := JUndefined |}.

(** The four download buttons of the page, top to bottom, with the label
    of each, the route it posts to and its click handler. *)
Definition tiers
  : list (string * string
          * (Page.Server -> Page.State -> M Page.Action unit)) :=
  [("Download Selected Quality", "/api/download", Page.downloadVideo);
   ("Download Alternative (480p)", "/api/download-alternative",
    Page.downloadAlternative);
   ("Download Fallback (720p)", "/api/download-fallback",
    Page.downloadFallback);
   ("Download Simple (Lowest Quality)", "/api/download-simple",
    Page.downloadSimple)].

(** ** Concrete backends, servers and pages *)

(** A backend that answers every request with 200 and an empty JSON
    object. *)
Definition accepting_backend : Backend :=
  fun _ => Ret {| fr_status := 200; fr_json := Ret (JObj []);
                  fr_blob := Ret [] |}.

(** A backend that refuses every request with 404 and a detail message. *)
Definition not_found_response : FetchResponse :=
  {| fr_status := 404;
     fr_json := Ret (JObj [("detail", JStr "Video unavailable")]);
     fr_blob := Ret [] |}.

Definition refusing_backend : Backend := fun _ => Ret not_found_response.

(** The entry of [VideoInfo.formats] of an audio stream in a WebM
    container, as the lookup reports it, and the request the page sends
    when it is the selected format. *)
Definition webm_audio : Page.Format :=
  {| Page.format_id := "251"; Page.ext := "webm";
     Page.resolution := "audio only"; Page.filesize := JNull;
     Page.vcodec := "none"; Page.acodec := "opus" |}.

Definition download_request (f : Page.Format) : NextRequest :=
  {| request_json :=
       Ret (JObj [("url", JStr "https://www.youtube.com/watch?v=abc");
                  ("format_id", JStr (Page.format_id f))]) |}.

(** A page on which a video has been looked up and a format selected. *)
Definition ready : Page.State :=
  {| Page.url := "https://www.youtube.com/watch?v=abc";
     Page.videoInfo := JObj [("title", JStr "abc")];
     Page.selectedFormat := "18";
     Page.downloadProgress := None |}.

Definition idle : Page.View :=
  {| Page.progress_state := None; Page.stream_open := false |}.

(** A page that follows the progress stream of the task [d41d8]. *)
Definition watching : Page.View :=
  Page.subscribed (Page.started (JStr "d41d8")).

(** A server that answers a submission as a duplicate of a task that is
    at 42.5 percent. *)
Definition duplicate_data : jsval :=
  JObj [("message", JStr "Download task already exists");
        ("download_id", JStr "d41d8");
        ("progress", JNum (Num (85 # 2)))].

Definition duplicate_server : Page.Server :=
  fun _ => Ret {| Page.cr_ok := true; Page.cr_json := Ret duplicate_data |}.

(** A server on which the extraction of the selected format fails. *)
Definition failing_server : Page.Server :=
  fun _ =>
    Ret {| Page.cr_ok := true;
           Page.cr_json :=
             Ret (JObj [("status", JStr "failed");
                        ("error", JStr "Requested format is not available");
                        ("download_id", JStr "d41d8")]) |}.

(** A server that cannot be reached. *)
Definition unreachable_server : Page.Server := fun _ => Throw NetworkError.

(** ** Concrete registries *)

Definition task_in (s : Orchestrator.TaskState) : Orchestrator.Task :=
  {| Orchestrator.sourceURL := "https://www.youtube.com/watch?v=abc";
     Orchestrator.qualitySelector := "18";
     Orchestrator.state := s;
     Orchestrator.progressPercent := 40;
     Orchestrator.attempt := 0;
     Orchestrator.cancelRequested := false |}.

Definition two_tasks : gmap string Orchestrator.Task :=
  <["run" := task_in Orchestrator.Running]>
    (<["done" := task_in Orchestrator.Completed]> ∅).

(** ** Further vocabulary: answers of the routes *)

(** An answer with an error body: [{error: msg}] with a truthy message. *)
Definition error_answer (resp : NextResponse) : Prop :=
  exists msg, truthy msg = true /\ body resp = JsonBody (error_body msg).

(** The handler returned, with status 200 or with an error body. *)
Definition answers (m : M BackendRequest NextResponse) : Prop :=
  exists resp,
    result m = Ret resp /\ (status resp = 200 \/ error_answer resp).

(** A number that JSON text can say. *)
Definition finite (n : number) : bool :=
  match n with
  | Num _ => true
  | NaN | Infinity _ => false
  end.

(** A value that JSON text can say in full: no [undefined] and no number
    that is not finite, at any depth. *)
Fixpoint plain (v : jsval) : bool :=
  match v with
  | JUndefined => false
  | JNull | JBool _ | JStr _ => true
  | JNum n => finite n
  | JArr items => forallb plain items
  | JObj props =>
      (fix all (ps : list (string * jsval)) : bool :=
         match ps with
         | [] => true
         | (_, x) :: rest => plain x && all rest
         end) props
  end.

(** ** Further vocabulary: the page *)

(** The message has a truthy [download_id] of its own that is not the
    captured one. *)
Definition carries_other_id (captured : Page.DownloadProgress)
    (props : list (string * jsval)) : bool :=
  truthy (assoc "download_id" props)
  && negb (same_value (Page.download_id captured)
             (assoc "download_id" props)).


(** The component state after the updates of a trace. *)
Definition after (st : Page.State) (trace : list Page.Action) : Page.State :=
  {| Page.url := Page.url st;
     Page.videoInfo := Page.videoInfo st;
     Page.selectedFormat := Page.selectedFormat st;
     Page.downloadProgress :=
       Page.progress_state
         (Page.run {| Page.progress_state := Page.downloadProgress st;
                      Page.stream_open := false |} trace) |}.

(** The answer of the video-info route to every failure. *)
Definition video_info_failed : NextResponse :=
  json_response 500 (error_body (JStr "Failed to fetch video information")).

Definition lookup_failed : string :=
  "Failed to fetch video information. Please check the URL and try again.".

(** The events [onmessage] passes over: those that cannot be parsed,
    [null], and keepalives. *)
Inductive passed_over : outcome jsval -> Prop :=
| unparsable e : passed_over (Throw e)
| null_event : passed_over (Ret JNull)
| keepalive_event progressData :
    get progressData "status" = Ret (JStr "keepalive") ->
    passed_over (Ret progressData).

(** Every state in the list carries a truthy [download_id]. *)
Definition all_identified (us : list (option Page.DownloadProgress)) : Prop :=
  Forall (fun dp => match dp with
                    | Some p => truthy (Page.download_id p) = true
                    | None => True
                    end) us.

Definition gray : string := "bg-gray-100 text-gray-800 border-gray-200".
Definition purple : string :=
  "bg-purple-100 text-purple-800 border-purple-200".

(** [sub] occurs in [s]. *)
Definition occurs (sub s : string) : Prop :=
  exists a b, s = a +:+ sub +:+ b.

(** A backend that starts a task and reports its id. *)
Definition starting_backend : Backend :=
  fun _ => Ret {| fr_status := 200;
                  fr_json := Ret (JObj [("download_id", JStr "d41d8");
                                        ("status", JStr "started")]);
                  fr_blob := Ret [] |}.

(** A backend whose error body is not JSON. *)
Definition gateway_error : FetchResponse :=
  {| fr_status := 502; fr_json := Throw SyntaxError; fr_blob := Ret [] |}.

(** A backend that is down behind a proxy: 503 with a page of HTML. *)
Definition unavailable : FetchResponse :=
  {| fr_status := 503; fr_json := Throw SyntaxError; fr_blob := Ret [] |}.

Definition no_parse : list Byte.byte -> outcome jsval :=
  fun _ => Throw SyntaxError.

(** An answer of the backend, with status 201, in which a size was
    written [1e400], which [JSON.parse] reads as [Infinity]. *)
Definition oversized_video : FetchResponse :=
  {| fr_status := 201;
     fr_json := Ret (JObj [("title", JStr "abc");
                           ("filesize", JNum (Infinity false))]);
     fr_blob := Ret [] |}.

(** The request of a tier button. *)
Definition tier_request (st : Page.State) (route : string)
  : Page.ClientRequest :=
  Page.post route (JObj [("url", JStr (Page.url st))]).

(** The page while it shows the fresh ['downloading'] state: the card with
    0 percent is the only block, no event source is opened, every download
    button is disabled and the cancel button sends nothing. *)
Definition waiting_without_id (interpolate : jsval -> string)
    (st' : Page.State) : Prop :=
  Page.downloadProgress st' = Some Page.fresh_download
  /\ Render.stream_target (Page.downloadProgress st') = None
  /\ Render.panels (Page.downloadProgress st') = [Render.DownloadingCard]
  /\ Render.download_disabled st' = true
  /\ Render.tier_disabled st' = true
  /\ forall server',
       sent (Render.cancel_click interpolate server' Page.fresh_download)
       = [].

(** A server that answers every request with an error body. *)
Definition error_only_server : Page.Server :=
  fun _ => Ret {| Page.cr_ok := false;
                  Page.cr_json :=
                    Ret (JObj [("error", JStr "Download failed")]) |}.

(** * Properties of the route handlers *)

(** Unfolds the sequencing of a handler body. *)
Ltac unfold_async :=
  unfold Http.fetch, Page.fetch, Page.setDownloadProgress, Page.close,
    NextResponse_json, NextResponse_blob, bind, try_catch, lift, ret,
    throw, tell, result, sent in *.

(** ** Serialisation *)

Lemma serialise_object props :
  serialise (JObj props) = Some (JObj (members props)).
Proof. reflexivity. Qed.

Lemma serialise_none v : serialise v = None -> v = JUndefined.
Proof. destruct v as [| | b | [| neg | q] | s | items | props]; cbn; congruence. Qed.

Lemma serialise_truthy v :
  truthy v = true -> exists w, serialise v = Some w.
Proof.
  intros H. destruct (serialise v) as [w |] eqn:Hv; [exists w; reflexivity |].
  apply serialise_none in Hv. subst v. discriminate H.
Qed.

(** A property that has a JSON text is read back as that text says. *)
Lemma assoc_members k props w :
  serialise (assoc k props) = Some w -> assoc k (members props) = w.
Proof.
  induction props as [| [k' x] props IH]; [discriminate |].
  cbn [assoc members]. destruct (String.eqb k k') eqn:Hk.
  - intros ->. cbn [assoc]. rewrite Hk. reflexivity.
  - intros H. destruct (serialise x); [cbn [assoc]; rewrite Hk |]; exact (IH H).
Qed.

(** Reading a property commutes with serialisation when the property has
    a JSON text. *)
Lemma get_read_back data k v w :
  get data k = Ret v -> serialise v = Some w ->
  exists delivered,
    serialise data = Some delivered /\ get delivered k = Ret w.
Proof.
  intros Hget Hw.
  destruct data as [| | b | n | s | items | props]; try discriminate Hget;
    try (injection Hget as <-; discriminate Hw).
  exists (JObj (members props)). split; [apply serialise_object |].
  cbn in *. f_equal. apply assoc_members. injection Hget as ->. exact Hw.
Qed.

(** What serialisation makes of a truthy value: it stays truthy unless it
    is an infinite number, which is written [null]. *)
Lemma serialise_truthy_cases v w :
  truthy v = true -> serialise v = Some w ->
  (truthy w = false <-> exists neg, v = JNum (Infinity neg)).
Proof.
  intros Hv Hw.
  destruct v as [| | b | [| neg | q] | s | items | props];
    try discriminate Hv; cbn in Hw; injection Hw as <-.
  - split; [intros H; congruence | intros [neg H]; discriminate H].
  - split; [intros _; exists neg; reflexivity | reflexivity].
  - split; [intros H; congruence | intros [neg H]; discriminate H].
  - split; [intros H; congruence | intros [neg H]; discriminate H].
  - split; [discriminate | intros [neg H]; discriminate H].
  - split; [discriminate | intros [neg H]; discriminate H].
Qed.

Example split_two : split "-" "137-webm" = ["137"; "webm"].
Proof. reflexivity. Qed.

Example split_none : split "-" "251" = ["251"].
Proof. reflexivity. Qed.

Example split_trailing : split "-" "18-" = ["18"; ""].
Proof. reflexivity. Qed.

Example download_simple_success :
  DownloadSimpleRoute.POST accepting_backend
    {| request_json := Ret (JObj [("url", JStr "https://youtu.be/abc")]) |}
  = (Ret (json_response 200 (JObj [])),
     [DownloadSimpleRoute.backend_call (JStr "https://youtu.be/abc")]).
Proof. reflexivity. Qed.

Example download_simple_backend_down :
  DownloadSimpleRoute.POST (fun _ => Throw NetworkError)
    {| request_json := Ret (JObj [("url", JStr "https://youtu.be/abc")]) |}
  = (Ret (json_response 500 (error_body (JStr "Download failed"))),
     [DownloadSimpleRoute.backend_call (JStr "https://youtu.be/abc")]).
Proof. reflexivity. Qed.

Example cancelled_event_clears_the_page :
  Page.run watching
    (sent (Page.onmessage (Page.started (JStr "d41d8"))
             (Ret (JObj [("status", JStr "cancelled")]))))
  = idle.
Proof. reflexivity. Qed.

Example unparsable_event_is_dropped :
  sent (Page.onmessage (Page.started (JStr "d41d8")) (Throw SyntaxError))
  = [].
Proof. reflexivity. Qed.

(** ** Request validation *)

Section RequestValidation.

Variable backend : Backend.

Lemma download_simple_rejects data u :
  get data "url" = Ret u -> truthy u = false ->
  DownloadSimpleRoute.POST backend {| request_json := Ret data |}
  = (Ret (bad_request "URL is required"), []).
Proof.
  intros Hget Hfalsy. unfold DownloadSimpleRoute.POST. unfold_async.
  cbn. rewrite Hget. cbn. rewrite Hfalsy. reflexivity.
Qed.

Lemma video_info_rejects data u :
  get data "url" = Ret u -> truthy u = false ->
  VideoInfoRoute.POST backend {| request_json := Ret data |}
  = (Ret (bad_request "URL is required"), []).
Proof.
  intros Hget Hfalsy. unfold VideoInfoRoute.POST. unfold_async.
  cbn. rewrite Hget. cbn. rewrite Hfalsy. reflexivity.
Qed.

Lemma download_rejects data u f :
  get data "url" = Ret u -> get data "format_id" = Ret f ->
  truthy u = false \/ truthy f = false ->
  DownloadRoute.POST backend {| request_json := Ret data |}
  = (Ret (bad_request "URL and format_id are required"), []).
Proof.
  intros Hu Hf Hfalsy. unfold DownloadRoute.POST. unfold_async.
  cbn. rewrite Hu. cbn. rewrite Hf. cbn.
  destruct Hfalsy as [-> | ->]; [reflexivity |].
  rewrite orb_true_r. reflexivity.
Qed.

(** A property that is absent reads [undefined], which is falsy. *)
Lemma missing_is_falsy props k :
  (forall v, (k, v) ∉ props) -> truthy (assoc k props) = false.
Proof.
  intros Hmissing. induction props as [| [k' v] props IH]; [reflexivity |].
  cbn. destruct (String.eqb_spec k k') as [-> | Hne].
  - exfalso. apply (Hmissing v). left.
  - apply IH. intros w Hin. apply (Hmissing w). right. exact Hin.
Qed.

End RequestValidation.

(** C5. A request body in which [url] is missing (or otherwise falsy) is
    answered by the download-simple route with status 400 and an error
    body, and a body in which [url] or [format_id] is missing is answered
    so by the format-download route; in both cases the handler returns
    without having sent any request to the backend. *)
Theorem missing_field_rejected_without_backend_call
    (backend : Backend) (data u f : jsval) :
  get data "url" = Ret u ->
  get data "format_id" = Ret f ->
  (truthy u = false ->
     DownloadSimpleRoute.POST backend {| request_json := Ret data |}
     = (Ret (bad_request "URL is required"), []))
  /\ (truthy u = false \/ truthy f = false ->
        DownloadRoute.POST backend {| request_json := Ret data |}
        = (Ret (bad_request "URL and format_id are required"), [])).
Proof.
  intros Hu Hf. split.
  - intros Hfalsy. exact (download_simple_rejects backend data u Hu Hfalsy).
  - intros Hfalsy. exact (download_rejects backend data u f Hu Hf Hfalsy).
Qed.

Lemma missing_field_rejected_witness :
  let data := JObj [("format_id", JStr "18")] in
  status_of (DownloadSimpleRoute.POST accepting_backend
               {| request_json := Ret data |}) = Some 400
  /\ sent (DownloadSimpleRoute.POST accepting_backend
             {| request_json := Ret data |}) = []
  /\ sent (DownloadRoute.POST accepting_backend
             {| request_json := Ret data |}) = [].
Proof.
  destruct (missing_field_rejected_without_backend_call accepting_backend
              (JObj [("format_id", JStr "18")]) JUndefined (JStr "18")
              eq_refl eq_refl) as [Hsimple Hdownload].
  cbv zeta. rewrite (Hsimple eq_refl), (Hdownload (or_introl eq_refl)).
  repeat split.
Defined.

(** X3. The download-simple route sends a request to the backend only
    for a body with a truthy [url], and then exactly one. *)
Theorem download_simple_calls_backend_at_most_once
    (backend : Backend) (request : NextRequest) :
  sent (DownloadSimpleRoute.POST backend request) = []
  \/ exists data u,
       request_json request = Ret data /\ get data "url" = Ret u
       /\ truthy u = true
       /\ sent (DownloadSimpleRoute.POST backend request)
          = [DownloadSimpleRoute.backend_call u].
Proof.
  unfold DownloadSimpleRoute.POST. unfold_async.
  destruct (request_json request) as [data | e]; [| left; reflexivity].
  cbn. destruct (get data "url") as [u | e] eqn:Hu; [| left; reflexivity].
  cbn. destruct (truthy u) eqn:Htruthy; [| left; reflexivity].
  right. exists data, u. repeat split; try assumption. cbn.
  destruct (backend _) as [r | e]; [| reflexivity]. cbn.
  destruct (ok r); cbn.
  - destruct (fr_json r) as [payload | e]; [| reflexivity]. cbn.
    destruct (serialise payload); reflexivity.
  - destruct (fr_json r) as [errorData | e]; [| reflexivity]. cbn.
    destruct (get errorData "detail"); [| reflexivity]. cbn.
    destruct (valid_status (fr_status r)); reflexivity.
Qed.

(** X4. A body that cannot be read as an object (it is [null], or it is
    not JSON) sends the download-simple route to its [catch]: status 500,
    and no request to the backend. *)
Theorem download_simple_unreadable_body
    (backend : Backend) (request : NextRequest) :
  request_json request = Ret JNull \/
  (exists e, request_json request = Throw e) ->
  DownloadSimpleRoute.POST backend request
  = (Ret (json_response 500 (error_body (JStr "Download failed"))), []).
Proof.
  intros [Hnull | [e He]]; unfold DownloadSimpleRoute.POST;
    unfold_async; [rewrite Hnull | rewrite He]; reflexivity.
Qed.

Lemma download_simple_unreadable_body_witness :
  DownloadSimpleRoute.POST accepting_backend {| request_json := Ret JNull |}
  = (Ret (json_response 500 (error_body (JStr "Download failed"))), []).
Proof.
  apply (download_simple_unreadable_body accepting_backend
           {| request_json := Ret JNull |}).
  left. reflexivity.
Defined.

(** ** Failures of the backend call *)

Lemma video_info_collapses backend data u :
  get data "url" = Ret u -> truthy u = true ->
  backend_fails (backend (VideoInfoRoute.backend_call u)) ->
  VideoInfoRoute.POST backend {| request_json := Ret data |}
  = (Ret (json_response 500
            (error_body (JStr "Failed to fetch video information"))),
     [VideoInfoRoute.backend_call u]).
Proof.
  intros Hu Htruthy Hfail. unfold VideoInfoRoute.POST. unfold_async.
  cbn. rewrite Hu. cbn. rewrite Htruthy. cbn.
  inversion Hfail as [e He | r Hok Hr | r e Hok Hjson Hr]; cbn.
  - reflexivity.
  - rewrite Hok. reflexivity.
  - rewrite Hok. cbn. rewrite Hjson. reflexivity.
Qed.

Lemma download_simple_propagates backend data u r errorData detail :
  get data "url" = Ret u -> truthy u = true ->
  backend (DownloadSimpleRoute.backend_call u) = Ret r ->
  ok r = false -> valid_status (fr_status r) = true ->
  fr_json r = Ret errorData ->
  get errorData "detail" = Ret detail ->
  DownloadSimpleRoute.POST backend {| request_json := Ret data |}
  = (Ret (json_response (fr_status r)
            (error_body (js_or detail (JStr "Download failed")))),
     [DownloadSimpleRoute.backend_call u]).
Proof.
  intros Hu Htruthy Hr Hok Hvalid Hjson Hdetail.
  unfold DownloadSimpleRoute.POST. unfold_async.
  cbn. rewrite Hu. cbn. rewrite Htruthy. cbn. rewrite Hr. cbn.
  rewrite Hok. cbn. rewrite Hjson. cbn. rewrite Hdetail. cbn.
  rewrite Hvalid. reflexivity.
Qed.

Section SimpleErrors.

Variable backend : Backend.
Variables data u : jsval.
Variable r : FetchResponse.
Hypothesis Hurl : get data "url" = Ret u.
Hypothesis Htruthy : truthy u = true.
Hypothesis Hbackend : backend (DownloadSimpleRoute.backend_call u) = Ret r.
Hypothesis Hnot_ok : ok r = false.

Lemma simple_error_body_unreadable :
  (exists e, fr_json r = Throw e) \/ fr_json r = Ret JNull ->
  result (DownloadSimpleRoute.POST backend {| request_json := Ret data |})
  = Ret download_failed.
Proof using Hurl Htruthy Hbackend Hnot_ok.
  intros Hbody. unfold DownloadSimpleRoute.POST. unfold_async.
  cbn. rewrite Hurl. cbn. rewrite Htruthy. cbn. rewrite Hbackend. cbn.
  rewrite Hnot_ok. cbn.
  destruct Hbody as [[e ->] | ->]; reflexivity.
Qed.

Lemma simple_error_status_refused errorData detail :
  fr_json r = Ret errorData -> get errorData "detail" = Ret detail ->
  valid_status (fr_status r) = false ->
  result (DownloadSimpleRoute.POST backend {| request_json := Ret data |})
  = Ret download_failed.
Proof using Hurl Htruthy Hbackend Hnot_ok.
  intros Hjson Hdetail Hstatus. unfold DownloadSimpleRoute.POST.
  unfold_async.
  cbn. rewrite Hurl. cbn. rewrite Htruthy. cbn. rewrite Hbackend. cbn.
  rewrite Hnot_ok. cbn. rewrite Hjson. cbn. rewrite Hdetail. cbn.
  rewrite Hstatus. reflexivity.
Qed.

Lemma simple_error_status_never_carried :
  valid_status (fr_status r) = false ->
  result (DownloadSimpleRoute.POST backend {| request_json := Ret data |})
  = Ret download_failed.
Proof using Hurl Htruthy Hbackend Hnot_ok.
  intros Hstatus. unfold DownloadSimpleRoute.POST. unfold_async.
  cbn. rewrite Hurl. cbn. rewrite Htruthy. cbn. rewrite Hbackend. cbn.
  rewrite Hnot_ok. cbn.
  destruct (fr_json r) as [errorData | e]; [| reflexivity]. cbn.
  destruct (get errorData "detail") as [detail | e]; [| reflexivity]. cbn.
  rewrite Hstatus. reflexivity.
Qed.

End SimpleErrors.

(** C10, as stated, fails: a backend that answers 503 with a body that is
    not JSON is answered by the download-simple route with 500 and
    ['Download failed'], not with the backend's status. *)
Lemma unreadable_error_is_answered_500 :
  ok unavailable = false
  /\ fr_status unavailable = 503
  /\ DownloadSimpleRoute.POST (fun _ => Ret unavailable)
       {| request_json := Ret (JObj [("url", JStr "https://youtu.be/abc")]) |}
     = (Ret (json_response 500 (error_body (JStr "Download failed"))),
        [DownloadSimpleRoute.backend_call (JStr "https://youtu.be/abc")]).
Proof. repeat split. Qed.

(** C10, amended. Once the request has passed validation, the video-info
    route answers every failure of the backend call (network error, non-OK
    response, malformed JSON) with status 500 and the fixed body
    [{error: 'Failed to fetch video information'}], whatever the backend
    status or detail was, and it answers a request that is not JSON in
    the same way. The download-simple route preserves the status of a
    non-OK backend response only when the body of that response is JSON
    and not [null] and the status is one that a response with a body can
    carry: it then answers with that status and hands the detail of the
    body to [NextResponse.json] as the error, or ['Download failed'] when
    the body has no truthy detail. In the other cases it answers 500 with
    ['Download failed']. *)
Theorem video_info_collapses_download_simple_preserves
    (backend : Backend) (data u : jsval) :
  get data "url" = Ret u -> truthy u = true ->
  (backend_fails (backend (VideoInfoRoute.backend_call u)) ->
     result (VideoInfoRoute.POST backend {| request_json := Ret data |})
     = Ret (json_response 500
              (error_body (JStr "Failed to fetch video information"))))
  /\ (forall e,
        result (VideoInfoRoute.POST backend {| request_json := Throw e |})
        = Ret (json_response 500
                 (error_body (JStr "Failed to fetch video information"))))
  /\ (forall r errorData detail,
        backend (DownloadSimpleRoute.backend_call u) = Ret r ->
        ok r = false -> valid_status (fr_status r) = true ->
        fr_json r = Ret errorData ->
        get errorData "detail" = Ret detail -> truthy detail = true ->
        result (DownloadSimpleRoute.POST backend
                  {| request_json := Ret data |})
        = Ret (json_response (fr_status r) (error_body detail)))
  /\ (forall r errorData detail,
        backend (DownloadSimpleRoute.backend_call u) = Ret r ->
        ok r = false -> valid_status (fr_status r) = true ->
        fr_json r = Ret errorData ->
        get errorData "detail" = Ret detail -> truthy detail = false ->
        result (DownloadSimpleRoute.POST backend
                  {| request_json := Ret data |})
        = Ret (json_response (fr_status r)
                 (error_body (JStr "Download failed"))))
  /\ (forall r,
        backend (DownloadSimpleRoute.backend_call u) = Ret r ->
        ok r = false ->
        (exists e, fr_json r = Throw e) \/ fr_json r = Ret JNull
        \/ valid_status (fr_status r) = false ->
        result (DownloadSimpleRoute.POST backend
                  {| request_json := Ret data |})
        = Ret download_failed).
Proof.
  intros Hu Htruthy. split; [| split; [| split; [| split]]].
  - intros Hfail.
    rewrite (video_info_collapses backend data u Hu Htruthy Hfail).
    reflexivity.
  - intros e. reflexivity.
  - intros r errorData detail Hr Hok Hvalid Hjson Hdetail Hd.
    rewrite (download_simple_propagates backend data u r errorData detail
               Hu Htruthy Hr Hok Hvalid Hjson Hdetail).
    unfold js_or. rewrite Hd. reflexivity.
  - intros r errorData detail Hr Hok Hvalid Hjson Hdetail Hd.
    rewrite (download_simple_propagates backend data u r errorData detail
               Hu Htruthy Hr Hok Hvalid Hjson Hdetail).
    unfold js_or. rewrite Hd. reflexivity.
  - intros r Hr Hok [Hbody | [Hnull | Hstatus]].
    + apply (simple_error_body_unreadable backend data u r Hu Htruthy Hr Hok).
      left. exact Hbody.
    + apply (simple_error_body_unreadable backend data u r Hu Htruthy Hr Hok).
      right. exact Hnull.
    + exact (simple_error_status_never_carried backend data u r
               Hu Htruthy Hr Hok Hstatus).
Qed.

Lemma video_info_collapses_download_simple_preserves_witness :
  let request :=
    {| request_json := Ret (JObj [("url", JStr "https://youtu.be/abc")]) |} in
  result (VideoInfoRoute.POST refusing_backend request)
  = Ret (json_response 500
           (error_body (JStr "Failed to fetch video information")))
  /\ result (DownloadSimpleRoute.POST refusing_backend request)
     = Ret (json_response 404 (error_body (JStr "Video unavailable"))).
Proof.
  destruct (video_info_collapses_download_simple_preserves refusing_backend
              (JObj [("url", JStr "https://youtu.be/abc")])
              (JStr "https://youtu.be/abc") eq_refl eq_refl)
    as (Hinfo & _ & Hsimple & _).
  split.
  - apply Hinfo. apply (response_not_ok not_found_response). reflexivity.
  - apply (Hsimple not_found_response
             (JObj [("detail", JStr "Video unavailable")])
             (JStr "Video unavailable")); reflexivity.
Defined.

(** ** The delivered file *)

Lemma split_no_dash s : no_dash s = true -> split "-" s = [s].
Proof.
  induction s as [| c rest IH]; cbn; [reflexivity |].
  intros H. apply andb_prop in H as [Hc Hrest].
  apply negb_true_iff in Hc. rewrite Hc, (IH Hrest). reflexivity.
Qed.

Lemma split_at_dash a b :
  no_dash a = true -> split "-" (a +:+ "-" +:+ b) = a :: split "-" b.
Proof.
  induction a as [| c rest IH]; simpl; [reflexivity |].
  intros H. apply andb_prop in H as [Hc Hrest].
  apply negb_true_iff in Hc. rewrite Hc, (IH Hrest). reflexivity.
Qed.

Lemma second_segment_of_dashed id e :
  no_dash id = true -> no_dash e = true -> e <> "" ->
  DownloadRoute.second_segment_or_mp4 (id +:+ "-" +:+ e) = e.
Proof.
  intros Hid He Hne. unfold DownloadRoute.second_segment_or_mp4.
  rewrite (split_at_dash id e Hid), (split_no_dash e He). cbn.
  destruct (String.eqb_spec e ""); [contradiction | reflexivity].
Qed.

Lemma second_segment_cases s :
  DownloadRoute.second_segment_or_mp4 s = "mp4"
  \/ split "-" s !! 1%nat = Some (DownloadRoute.second_segment_or_mp4 s).
Proof.
  unfold DownloadRoute.second_segment_or_mp4.
  destruct (split "-" s !! 1%nat) as [segment |]; [| left; reflexivity].
  destruct (String.eqb segment ""); [left | right]; reflexivity.
Qed.

Lemma all_bytes_app p a b :
  all_bytes p (a +:+ b) = all_bytes p a && all_bytes p b.
Proof.
  induction a as [| c a IH]; [reflexivity |].
  simpl. rewrite IH. apply andb_assoc.
Qed.

Lemma trim_end_kept s c :
  http_blank c = false -> trim_end (s +:+ String c "") = s +:+ String c "".
Proof.
  intros Hc. induction s as [| d s IH]; simpl; [rewrite Hc; reflexivity |].
  rewrite IH. destruct s; reflexivity.
Qed.

(** The header that names the file is taken as it is written when the
    extension is safe, and refused otherwise. *)
Lemma content_disposition_normal e :
  normalize (DownloadRoute.content_disposition e)
  = DownloadRoute.content_disposition e.
Proof.
  unfold normalize.
  change (trim_start (DownloadRoute.content_disposition e))
    with (DownloadRoute.content_disposition e).
  change (DownloadRoute.content_disposition e)
    with ((("attachment; filename=" +:+ DownloadRoute.dquote +:+ "video.")
           +:+ e) +:+ DownloadRoute.dquote).
  apply trim_end_kept. reflexivity.
Qed.

Lemma content_disposition_accepted e :
  header_value (DownloadRoute.content_disposition e) = header_safe e.
Proof.
  unfold header_value. rewrite content_disposition_normal.
  change (DownloadRoute.content_disposition e)
    with ("attachment; filename=" +:+ DownloadRoute.dquote +:+ "video."
          +:+ e +:+ DownloadRoute.dquote).
  rewrite !all_bytes_app. unfold header_safe.
  change (all_bytes latin1 "attachment; filename=") with true.
  change (all_bytes latin1 DownloadRoute.dquote) with true.
  change (all_bytes latin1 "video.") with true.
  change (all_bytes header_byte "attachment; filename=") with true.
  change (all_bytes header_byte DownloadRoute.dquote) with true.
  change (all_bytes header_byte "video.") with true.
  cbn [andb]. rewrite !andb_true_r. reflexivity.
Qed.

Lemma printable_is_safe e : printable e = true -> header_safe e = true.
Proof.
  unfold printable, header_safe.
  induction e as [| c e IH]; [reflexivity |].
  cbn [all_bytes]. intros H. apply andb_prop in H as [Hc He].
  apply IH in He. apply andb_prop in He as [Hlatin Hbytes].
  rewrite Hlatin, Hbytes, !andb_true_r.
  unfold printable_byte, latin1, header_byte in *.
  destruct (N.leb_spec 32 (N_of_ascii c)) as [Hlow |]; [| discriminate Hc].
  destruct (N.ltb_spec (N_of_ascii c) 196) as [Hhigh |];
    [| rewrite andb_false_r in Hc; discriminate Hc].
  destruct (N.eqb_spec (N_of_ascii c) 0); [lia |].
  destruct (N.eqb_spec (N_of_ascii c) 10); [lia |].
  destruct (N.eqb_spec (N_of_ascii c) 13); [lia |].
  reflexivity.
Qed.

Lemma attachment_built {L} blob e :
  @NextResponse_blob L blob
    [("Content-Type", "application/octet-stream");
     ("Content-Disposition", DownloadRoute.content_disposition e)]
  = if header_safe e then ret (attachment blob e) else throw TypeError.
Proof.
  unfold NextResponse_blob. cbn [forallb snd fst List.map].
  rewrite content_disposition_accepted, content_disposition_normal.
  change (header_value "application/octet-stream") with true.
  change (normalize "application/octet-stream")
    with "application/octet-stream".
  cbn [andb]. rewrite andb_true_r. reflexivity.
Qed.

(** What the format-download route answers once the backend has delivered
    the bytes of the download. *)
Lemma download_delivered backend data u s r blob :
  get data "url" = Ret u -> truthy u = true ->
  get data "format_id" = Ret (JStr s) -> s <> "" ->
  backend (DownloadRoute.backend_call u (JStr s)) = Ret r ->
  ok r = true -> fr_blob r = Ret blob ->
  DownloadRoute.POST backend {| request_json := Ret data |}
  = (Ret (if header_safe (DownloadRoute.second_segment_or_mp4 s)
          then attachment blob (DownloadRoute.second_segment_or_mp4 s)
          else download_failed),
     [DownloadRoute.backend_call u (JStr s)]).
Proof.
  intros Hu Htruthy Hf Hs Hr Hok Hblob.
  unfold DownloadRoute.POST.
  unfold Http.fetch, NextResponse_json, bind, try_catch, lift, tell.
  cbn. rewrite Hu. cbn. rewrite Hf. cbn. rewrite Htruthy.
  destruct (String.eqb_spec s ""); [contradiction |]. cbn.
  rewrite Hr. cbn. rewrite Hok. cbn. rewrite Hblob. cbn.
  rewrite attachment_built.
  destruct (header_safe (DownloadRoute.second_segment_or_mp4 s));
    reflexivity.
Qed.

(** C7, as stated, fails: for the format [251] in a [webm] container the
    completed download is delivered as [video.mp4]. *)
Lemma webm_download_is_named_mp4 :
  result (DownloadRoute.POST accepting_backend (download_request webm_audio))
  = Ret (attachment [] "mp4")
  /\ Page.ext webm_audio = "webm"
  /\ String.eqb (DownloadRoute.content_disposition (Page.ext webm_audio))
       (DownloadRoute.content_disposition "mp4") = false.
Proof. repeat split. Qed.

(** C7, amended. A completed download is delivered as a binary stream
    ([application/octet-stream]) whose [Content-Disposition] names the file
    [video.<e>], where [e] is the second dash-separated segment of the
    submitted [format_id], or [mp4] when that segment is absent or empty,
    provided [e] is made of printable characters up to U+00FF; when [e]
    holds a character that a header value cannot hold (one beyond U+00FF,
    a NUL, a LF or a CR) the response cannot be built and the route
    answers 500 with ['Download failed']. [e] is the extension written in
    the format id when the id has the form [<id>-<ext>]; the container
    extension of the chosen encoding is not consulted. *)
Theorem download_is_named_after_format_id
    (backend : Backend) (data u : jsval) (s : string)
    (r : FetchResponse) (blob : list Byte.byte) :
  get data "url" = Ret u -> truthy u = true ->
  get data "format_id" = Ret (JStr s) -> s <> "" ->
  backend (DownloadRoute.backend_call u (JStr s)) = Ret r ->
  ok r = true -> fr_blob r = Ret blob ->
  let e := DownloadRoute.second_segment_or_mp4 s in
  let answer :=
    result (DownloadRoute.POST backend {| request_json := Ret data |}) in
  (printable e = true -> answer = Ret (attachment blob e))
  /\ (header_safe e = false -> answer = Ret download_failed)
  /\ (e = "mp4" \/ split "-" s !! 1%nat = Some e)
  /\ (forall id e',
        s = id +:+ "-" +:+ e' -> no_dash id = true -> no_dash e' = true ->
        e' <> "" -> e = e').
Proof.
  intros Hu Htruthy Hf Hs Hr Hok Hblob e answer. subst e answer.
  rewrite (download_delivered backend data u s r blob
             Hu Htruthy Hf Hs Hr Hok Hblob).
  split; [intros H; rewrite (printable_is_safe _ H); reflexivity |].
  split; [intros ->; reflexivity |].
  split; [apply second_segment_cases |].
  intros id e' -> Hid He Hne. exact (second_segment_of_dashed id e' Hid He Hne).
Qed.

Lemma download_is_named_after_format_id_witness :
  result (DownloadRoute.POST accepting_backend
            {| request_json :=
                 Ret (JObj [("url", JStr "https://youtu.be/abc");
                            ("format_id", JStr "137-webm")]) |})
  = Ret (attachment [] "webm").
Proof.
  apply (download_is_named_after_format_id accepting_backend
           (JObj [("url", JStr "https://youtu.be/abc");
                  ("format_id", JStr "137-webm")])
           (JStr "https://youtu.be/abc") "137-webm"
           {| fr_status := 200; fr_json := Ret (JObj []);
              fr_blob := Ret [] |} []
           eq_refl eq_refl eq_refl ltac:(discriminate)
           eq_refl eq_refl eq_refl).
  reflexivity.
Defined.

(** * Properties of the page *)

(** ** The progress stream *)

Section ProgressStream.

Variable captured : Page.DownloadProgress.

Lemma keepalive_is_ignored progressData :
  get progressData "status" = Ret (JStr "keepalive") ->
  sent (Page.onmessage captured (Ret progressData)) = [].
Proof.
  intros Hs. unfold Page.onmessage. unfold_async. cbn. rewrite Hs.
  reflexivity.
Qed.

(** The trace of [onmessage] on an event that parses to an object. *)
Lemma onmessage_object props :
  sent (Page.onmessage captured (Ret (JObj props)))
  = let s := assoc "status" props in
    if is_str s "keepalive" then []
    else Page.SetDownloadProgress (Some (shown captured props s))
         :: (if is_str s "completed" then [Page.CloseEventSource]
             else if is_str s "failed" then [Page.CloseEventSource]
             else if is_str s "cancelled"
                  then [Page.CloseEventSource; Page.SetDownloadProgress None]
                  else []).
Proof.
  unfold Page.onmessage, shown. unfold_async. cbn.
  destruct (is_str (assoc "status" props) "keepalive"); [reflexivity |].
  cbn.
  destruct (is_str (assoc "status" props) "completed"); [reflexivity |].
  destruct (is_str (assoc "status" props) "failed"); [reflexivity |].
  destruct (is_str (assoc "status" props) "cancelled"); reflexivity.
Qed.

Lemma status_is_of_object progressData s :
  get progressData "status" = Ret (JStr s) ->
  exists props, progressData = JObj props /\ assoc "status" props = JStr s.
Proof.
  destruct progressData; cbn; intros H; try discriminate.
  exists props. split; [reflexivity | congruence].
Qed.

Lemma terminal_event_closes progressData s :
  In s ["completed"; "failed"; "cancelled"] ->
  get progressData "status" = Ret (JStr s) ->
  In Page.CloseEventSource (sent (Page.onmessage captured (Ret progressData))).
Proof.
  intros Hin Hs.
  destruct (status_is_of_object progressData s Hs) as (props & -> & Hst).
  rewrite onmessage_object, Hst. cbv zeta.
  destruct Hin as [<- | [<- | [<- | []]]]; cbn; auto.
Qed.

Lemma stream_stays_closed trace : forall v,
  Page.stream_open v = false -> Page.stream_open (Page.run v trace) = false.
Proof.
  induction trace as [| a trace IH]; intros v Hv; [exact Hv |].
  cbn. apply IH. destruct a; cbn; auto.
Qed.

Lemma close_closes trace : forall v,
  In Page.CloseEventSource trace ->
  Page.stream_open (Page.run v trace) = false.
Proof.
  induction trace as [| a trace IH]; intros v Hin; [destruct Hin |].
  destruct Hin as [-> | Hin].
  - cbn. apply stream_stays_closed. reflexivity.
  - cbn. apply IH. exact Hin.
Qed.

(** Nothing is delivered on a closed event source. *)
Lemma closed_stream_is_silent events v :
  Page.stream_open v = false -> Page.receive captured events v = [].
Proof. intros Hv. destruct events; cbn; rewrite ?Hv; reflexivity. Qed.

End ProgressStream.

(** C3. An event whose status is ['keepalive'] makes the handler do
    nothing: the progress state and the stream are left as they were. An
    event whose status is ['completed'], ['failed'] or ['cancelled'] makes
    the handler close the event source. *)
Theorem keepalive_ignored_terminal_closes
    (captured : Page.DownloadProgress) (progressData : jsval)
    (v : Page.View) :
  (get progressData "status" = Ret (JStr "keepalive") ->
     Page.run v (sent (Page.onmessage captured (Ret progressData))) = v)
  /\ (forall s, In s ["completed"; "failed"; "cancelled"] ->
        get progressData "status" = Ret (JStr s) ->
        Page.stream_open
          (Page.run v (sent (Page.onmessage captured (Ret progressData))))
        = false).
Proof.
  split.
  - intros Hs. rewrite (keepalive_is_ignored captured progressData Hs).
    reflexivity.
  - intros s Hin Hs. apply close_closes.
    exact (terminal_event_closes captured progressData s Hin Hs).
Qed.

Lemma keepalive_ignored_terminal_closes_witness :
  Page.run watching
    (sent (Page.onmessage (Page.started (JStr "d41d8"))
             (Ret (JObj [("status", JStr "keepalive")])))) = watching
  /\ Page.stream_open
       (Page.run watching
          (sent (Page.onmessage (Page.started (JStr "d41d8"))
                   (Ret (JObj [("status", JStr "failed");
                               ("error", JStr "HTTP Error 403")])))))
     = false.
Proof.
  split.
  - apply (keepalive_ignored_terminal_closes (Page.started (JStr "d41d8"))
             (JObj [("status", JStr "keepalive")]) watching).
    reflexivity.
  - apply (keepalive_ignored_terminal_closes (Page.started (JStr "d41d8"))
             (JObj [("status", JStr "failed");
                    ("error", JStr "HTTP Error 403")]) watching)
      with (s := "failed"); [cbn; auto | reflexivity].
Defined.

(** X2. An event of the progress stream whose status is anything but
    ['keepalive'], recognised or not, replaces the progress state by the
    fields of the event, with the status ['failed'] shown as ['error']. *)
Theorem every_other_event_replaces_the_state
    (captured : Page.DownloadProgress) (props : list (string * jsval)) :
  is_str (assoc "status" props) "keepalive" = false ->
  exists rest,
    sent (Page.onmessage captured (Ret (JObj props)))
    = Page.SetDownloadProgress
        (Some (shown captured props (assoc "status" props))) :: rest.
Proof.
  intros Hs. rewrite onmessage_object. cbv zeta. rewrite Hs.
  eexists. reflexivity.
Qed.

Lemma every_other_event_replaces_the_state_witness :
  exists rest,
    sent (Page.onmessage (Page.started (JStr "d41d8"))
            (Ret (JObj [("status", JStr "merging"); ("progress", of_Z 99)])))
    = Page.SetDownloadProgress
        (Some {| Page.status := JStr "merging";
                 Page.percentage := of_Z 99;
                 Page.download_id := JStr "d41d8";
                 Page.filename := JUndefined; Page.error := JUndefined;
                 Page.speed := JUndefined; Page.eta := JUndefined;
                 Page.message := JUndefined |}) :: rest.
Proof.
  apply (every_other_event_replaces_the_state (Page.started (JStr "d41d8"))
           [("status", JStr "merging"); ("progress", of_Z 99)]).
  reflexivity.
Defined.

(** ** Submitting a download *)

Section Submission.

Variable server : Page.Server.
Variable st : Page.State.

Lemma duplicate_response_handled data id progress :
  get data "message" = Ret (JStr "Download task already exists") ->
  get data "download_id" = Ret id -> get data "progress" = Ret progress ->
  Page.on_submission_response data
  = (Ret tt, [Page.SetDownloadProgress (Some (existing id progress))]).
Proof.
  intros Hmsg Hid Hprogress. unfold Page.on_submission_response.
  unfold_async. rewrite Hmsg. cbn. rewrite Hid. cbn. rewrite Hprogress.
  reflexivity.
Qed.

Lemma downloadVideo_duplicate r data id progress :
  Page.str_truthy (Page.selectedFormat st) = true ->
  truthy (Page.videoInfo st) = true ->
  server (submission st) = Ret r -> Page.cr_json r = Ret data ->
  get data "message" = Ret (JStr "Download task already exists") ->
  get data "download_id" = Ret id -> get data "progress" = Ret progress ->
  sent (Page.downloadVideo server st)
  = [Page.SetDownloadProgress (Some Page.fresh_download);
     Page.Fetch (submission st);
     Page.SetDownloadProgress (Some (existing id progress))].
Proof.
  intros Hfmt Hinfo Hr Hjson Hmsg Hid Hprogress.
  unfold Page.downloadVideo. rewrite Hfmt, Hinfo.
  unfold bind, try_catch, Page.fetch, Page.setDownloadProgress, tell, lift,
    sent.
  cbn. fold (submission st). rewrite Hr. cbn. rewrite Hjson.
  rewrite (duplicate_response_handled data id progress Hmsg Hid Hprogress).
  reflexivity.
Qed.

Lemma download_by_route_fetches route :
  Page.fetched (sent (Page.download_by_route route server st)) = []
  \/ Page.fetched (sent (Page.download_by_route route server st)) = [route].
Proof.
  unfold Page.download_by_route.
  destruct (truthy (Page.videoInfo st)); [right | left; reflexivity].
  unfold_async. cbn.
  destruct (server _) as [r | e]; [| reflexivity]. cbn.
  destruct (Page.cr_json r) as [data | e]; [| reflexivity]. cbn.
  destruct (get data "download_id") as [id | e]; [| reflexivity]. cbn.
  destruct (truthy id); reflexivity.
Qed.

Lemma fetched_app t1 t2 :
  Page.fetched (t1 ++ t2) = Page.fetched t1 ++ Page.fetched t2.
Proof.
  induction t1 as [| a t1 IH]; [reflexivity |].
  destruct a; cbn; rewrite IH; reflexivity.
Qed.

Lemma on_submission_response_fetches data :
  Page.fetched (sent (Page.on_submission_response data)) = [].
Proof.
  unfold Page.on_submission_response. unfold_async.
  destruct data; cbn; try reflexivity.
  all: try (destruct (truthy _); reflexivity).
  destruct (is_str (assoc "message" props) _); [reflexivity |]. cbn.
  destruct (is_str (assoc "status" props) _); [reflexivity |]. cbn.
  destruct (truthy _); reflexivity.
Qed.

Lemma downloadVideo_fetches :
  Page.fetched (sent (Page.downloadVideo server st)) = []
  \/ Page.fetched (sent (Page.downloadVideo server st)) = ["/api/download"].
Proof.
  unfold Page.downloadVideo.
  destruct (negb (Page.str_truthy (Page.selectedFormat st))
            || negb (truthy (Page.videoInfo st))); [left; reflexivity | right].
  unfold bind, try_catch, Page.fetch, Page.setDownloadProgress, tell, lift,
    sent.
  cbn.
  destruct (server _) as [r | e]; [| reflexivity]. cbn.
  destruct (Page.cr_json r) as [data | e]; [| reflexivity].
  pose proof (on_submission_response_fetches data) as Hnone.
  unfold sent in Hnone.
  destruct (Page.on_submission_response data) as [[[] | e] trace];
    cbn in *; rewrite ?fetched_app, Hnone; reflexivity.
Qed.

End Submission.

(** C1. When the response to a submission carries the message
    ['Download task already exists'], what [downloadVideo] does with it is
    to set the progress state to the ['exists'] status with the
    [download_id] and the [progress] of the response, and nothing else: it
    does not go on to the fresh ['downloading'] state of the regular path.
    No state set during the call satisfies the guard under which the
    effect opens a progress stream, so none is opened. *)
Theorem duplicate_submission_shows_existing_task
    (data id progress : jsval) :
  get data "message" = Ret (JStr "Download task already exists") ->
  get data "download_id" = Ret id -> get data "progress" = Ret progress ->
  Page.on_submission_response data
  = (Ret tt, [Page.SetDownloadProgress (Some (existing id progress))])
  /\ Page.status (existing id progress) = JStr "exists"
  /\ Page.download_id (existing id progress) = id
  /\ Page.percentage (existing id progress) = progress
  /\ Page.subscribes (Some (existing id progress)) = false
  /\ (forall server st r v,
        Page.str_truthy (Page.selectedFormat st) = true ->
        truthy (Page.videoInfo st) = true ->
        server (submission st) = Ret r -> Page.cr_json r = Ret data ->
        let trace := sent (Page.downloadVideo server st) in
        trace = [Page.SetDownloadProgress (Some Page.fresh_download);
                 Page.Fetch (submission st);
                 Page.SetDownloadProgress (Some (existing id progress))]
        /\ Page.progress_state (Page.run v trace)
           = Some (existing id progress)
        /\ Forall (fun dp => Page.subscribes dp = false)
             (Page.updates trace)).
Proof.
  intros Hmsg Hid Hprogress.
  split; [exact (duplicate_response_handled data id progress
                   Hmsg Hid Hprogress) |].
  do 3 (split; [reflexivity |]).
  split; [apply andb_false_r |].
  intros server st r v Hfmt Hinfo Hr Hjson trace. subst trace.
  rewrite (downloadVideo_duplicate server st r data id progress
             Hfmt Hinfo Hr Hjson Hmsg Hid Hprogress).
  repeat split. cbn. repeat constructor. apply andb_false_r.
Qed.

Lemma duplicate_submission_shows_existing_task_witness :
  Page.on_submission_response duplicate_data
  = (Ret tt,
     [Page.SetDownloadProgress
        (Some (existing (JStr "d41d8") (JNum (Num (85 # 2)))))])
  /\ Page.progress_state
       (Page.run idle (sent (Page.downloadVideo duplicate_server ready)))
     = Some (existing (JStr "d41d8") (JNum (Num (85 # 2)))).
Proof.
  destruct (duplicate_submission_shows_existing_task duplicate_data
              (JStr "d41d8") (JNum (Num (85 # 2)))
              eq_refl eq_refl eq_refl)
    as (Hresponse & _ & _ & _ & _ & Hcall).
  split; [exact Hresponse |].
  apply (Hcall duplicate_server ready
           {| Page.cr_ok := true; Page.cr_json := Ret duplicate_data |} idle);
    reflexivity.
Defined.

(** ** The quality tiers *)

(** C2, as stated, fails: after the download of the selected format has
    failed, the page is in the error state and the only request sent is the
    one for the selected format; the route of the next tier has not been
    asked. The same holds when the server cannot be reached. *)
Lemma failed_download_is_not_retried_at_480p :
  Page.fetched (sent (Page.downloadVideo failing_server ready))
  = ["/api/download"]
  /\ Page.status
       <$> Page.progress_state
             (Page.run idle (sent (Page.downloadVideo failing_server ready)))
     = Some (JStr "error")
  /\ Page.fetched (sent (Page.downloadVideo unreachable_server ready))
     = ["/api/download"].
Proof. repeat split. Qed.

(** C2, amended. The quality tiers (selected quality, 480p, 720p, lowest
    quality) are four click handlers of the page, each posting to a route
    of its own. One invocation sends at most one request, to the route of
    its own tier, whatever the server answers: a failure is never followed
    by a request for another tier. *)
Theorem each_tier_is_a_single_user_invoked_request
    (server : Page.Server) (st : Page.State) :
  map (fun t => fst t) tiers
  = [("Download Selected Quality", "/api/download");
     ("Download Alternative (480p)", "/api/download-alternative");
     ("Download Fallback (720p)", "/api/download-fallback");
     ("Download Simple (Lowest Quality)", "/api/download-simple")]
  /\ Forall
       (fun t =>
          let '(_, route, handler) := t in
          Page.fetched (sent (handler server st)) = []
          \/ Page.fetched (sent (handler server st)) = [route])
       tiers.
Proof.
  split; [reflexivity |].
  unfold tiers.
  constructor; [apply downloadVideo_fetches |].
  constructor; [apply download_by_route_fetches |].
  constructor; [apply download_by_route_fetches |].
  constructor; [apply download_by_route_fetches |].
  constructor.
Qed.

(** ** Cancelling *)

(** X1. [cancelDownload] sends one DELETE request for the task; it clears
    the progress state when the answer is OK, and leaves the page as it
    was when the answer is not OK or the request fails. *)
Theorem cancelDownload_clears_only_on_ok
    (server : Page.Server) (downloadId : string) (v : Page.View) :
  let rq := {| Page.path := "http://localhost:8000/downloads/" +:+ downloadId;
               Page.verb := "DELETE"; Page.sent_body := JUndefined |} in
  Page.fetched (sent (Page.cancelDownload server downloadId))
  = [Page.path rq]
  /\ Page.run v (sent (Page.cancelDownload server downloadId))
     = match server rq with
       | Ret r =>
           if Page.cr_ok r
           then {| Page.progress_state := None;
                   Page.stream_open := Page.stream_open v |}
           else v
       | Throw _ => v
       end.
Proof.
  unfold Page.cancelDownload. unfold_async. cbn.
  destruct (server _) as [r | e]; [| split; reflexivity]. cbn.
  destruct (Page.cr_ok r); split; reflexivity.
Qed.

(** ** File sizes *)

Lemma last_char_app s t : t <> "" -> last_char (s +:+ t) = last_char t.
Proof.
  intros Ht. induction s as [| c s IH]; [reflexivity |].
  simpl. rewrite IH.
  destruct (s +:+ t) eqn:Hst; [| reflexivity].
  destruct s; simpl in Hst; [contradiction | discriminate].
Qed.

Lemma size_name_cases i :
  In (Page.size_name i) ["Bytes"; "KB"; "MB"; "GB"; "undefined"].
Proof.
  unfold Page.size_name. destruct i as [z |]; [| cbn; tauto].
  destruct (z <? 0); [cbn; tauto |].
  destruct (Z.to_nat z) as [| [| [| [| n]]]]; cbn; tauto.
Qed.

Lemma suffixed_is_not_zero_byte text i :
  String.eqb (text +:+ " " +:+ Page.size_name i) "0 Byte" = false.
Proof.
  apply String.eqb_neq. intros Heq.
  apply (f_equal last_char) in Heq.
  rewrite last_char_app in Heq.
  - pose proof (size_name_cases i) as Hcases.
    cbn in Hcases.
    repeat (destruct Hcases as [Hname | Hcases];
            [rewrite <- Hname in Heq; discriminate Heq |]).
    destruct Hcases.
  - discriminate.
Qed.

(** C9. [formatFileSize] never returns ['0 Byte']: a value that passes
    the falsiness guard is not [=== 0], so the second guard never fires;
    [formatFileSize(0)] and [formatFileSize(undefined)] are both
    ['Unknown size']. This holds whatever the floating-point part
    computes. *)
Theorem formatFileSize_never_zero_byte
    (unit_index : jsval -> option Z) (scaled : jsval -> option Z -> string)
    (bytes : jsval) :
  Page.formatFileSize unit_index scaled (of_Z 0) = "Unknown size"
  /\ Page.formatFileSize unit_index scaled JUndefined = "Unknown size"
  /\ truthy bytes && is_zero bytes = false
  /\ String.eqb (Page.formatFileSize unit_index scaled bytes) "0 Byte"
     = false.
Proof.
  split; [reflexivity |]. split; [reflexivity |].
  assert (Hguard : truthy bytes && is_zero bytes = false).
  { destruct bytes as [| | b | [| neg | q] | s | items | props];
      try reflexivity; cbn; try apply andb_false_r.
    destruct (Qeq_bool q 0); reflexivity. }
  split; [exact Hguard |].
  unfold Page.formatFileSize.
  destruct (truthy bytes); [| reflexivity]. cbn in *. rewrite Hguard.
  apply suffixed_is_not_zero_byte.
Qed.

(** * Properties of the orchestrator *)

(** ** Cancellation *)

Section Cancellation.

Import Orchestrator.

Implicit Types (registry : gmap string Task) (id : string).

Lemma Cancel_unknown registry id :
  registry !! id = None -> Cancel id registry = (NotFound, registry).
Proof. intros H. unfold Cancel. rewrite H. reflexivity. Qed.

Lemma Cancel_terminal registry id t :
  registry !! id = Some t -> terminal (state t) = true ->
  Cancel id registry = (AlreadyTerminal, registry).
Proof. intros H Ht. unfold Cancel. rewrite H, Ht. reflexivity. Qed.

Lemma Cancel_active registry id t :
  registry !! id = Some t -> terminal (state t) = false ->
  (Cancel id registry).1 = CancelOk
  /\ state <$> (Cancel id registry).2 !! id = Some Cancelled
  /\ forall other, other <> id ->
       (Cancel id registry).2 !! other = registry !! other.
Proof.
  intros H Ht. unfold Cancel. rewrite H, Ht. cbn.
  split; [reflexivity |]. split.
  - rewrite lookup_insert_eq. reflexivity.
  - intros other Hne. apply lookup_insert_ne. congruence.
Qed.

End Cancellation.

(** C6. Cancelling by task id answers [CancelOk] exactly when the id
    names a task that is not terminal, and then that task is [Cancelled]
    and no other task is touched; an unknown id is answered [NotFound], a
    terminal task [AlreadyTerminal], and in both cases the registry is
    left as it was. *)
Theorem cancel_transitions_exactly_non_terminal_tasks
    (registry : gmap string Orchestrator.Task) (id : string) :
  ((Orchestrator.Cancel id registry).1 = Orchestrator.CancelOk
   <-> exists t, registry !! id = Some t
                 /\ Orchestrator.terminal (Orchestrator.state t) = false)
  /\ (forall t, registry !! id = Some t ->
        Orchestrator.terminal (Orchestrator.state t) = false ->
        Orchestrator.state <$> (Orchestrator.Cancel id registry).2 !! id
        = Some Orchestrator.Cancelled
        /\ forall other, other <> id ->
             (Orchestrator.Cancel id registry).2 !! other
             = registry !! other)
  /\ (registry !! id = None ->
        Orchestrator.Cancel id registry = (Orchestrator.NotFound, registry))
  /\ (forall t, registry !! id = Some t ->
        Orchestrator.terminal (Orchestrator.state t) = true ->
        Orchestrator.Cancel id registry
        = (Orchestrator.AlreadyTerminal, registry)).
Proof.
  split; [| split; [| split]].
  - split.
    + unfold Orchestrator.Cancel.
      destruct (registry !! id) as [t |] eqn:Hid; [| discriminate].
      destruct (Orchestrator.terminal (Orchestrator.state t)) eqn:Ht;
        [discriminate |].
      intros _. exists t. split; [reflexivity | exact Ht].
    + intros (t & Hid & Ht). apply (Cancel_active registry id t Hid Ht).
  - intros t Hid Ht. apply (Cancel_active registry id t Hid Ht).
  - apply Cancel_unknown.
  - apply Cancel_terminal.
Qed.

Lemma cancel_transitions_exactly_non_terminal_tasks_witness :
  (Orchestrator.state <$> (Orchestrator.Cancel "run" two_tasks).2 !! "run"
   = Some Orchestrator.Cancelled)
  /\ Orchestrator.Cancel "done" two_tasks
     = (Orchestrator.AlreadyTerminal, two_tasks)
  /\ Orchestrator.Cancel "gone" two_tasks
     = (Orchestrator.NotFound, two_tasks).
Proof.
  split; [| split].
  - apply (cancel_transitions_exactly_non_terminal_tasks two_tasks "run")
      with (t := task_in Orchestrator.Running); reflexivity.
  - apply (cancel_transitions_exactly_non_terminal_tasks two_tasks "done")
      with (t := task_in Orchestrator.Completed); reflexivity.
  - apply (cancel_transitions_exactly_non_terminal_tasks two_tasks "gone").
    reflexivity.
Defined.

(** * Further properties of the route handlers *)

Lemma js_or_truthy v w : truthy w = true -> truthy (js_or v w) = true.
Proof. intros Hw. unfold js_or. destruct (truthy v) eqn:Hv; assumption. Qed.

Lemma error_answer_json s msg :
  truthy msg = true -> error_answer (json_response s (error_body msg)).
Proof. intros H. exists msg. split; [exact H | reflexivity]. Qed.

Lemma not_ok_not_200 r : ok r = false -> fr_status r <> 200.
Proof. unfold ok. intros H Heq. rewrite Heq in H. discriminate H. Qed.

Section Answers.

Variable backend : Backend.
Variable request : NextRequest.

Lemma download_simple_answers :
  answers (DownloadSimpleRoute.POST backend request).
Proof.
  unfold answers, DownloadSimpleRoute.POST. unfold_async.
  destruct (request_json request) as [data | e]; cbn;
    [| eexists; split; [reflexivity | right; apply error_answer_json;
                                       reflexivity]].
  destruct (get data "url") as [u | e]; cbn;
    [| eexists; split; [reflexivity | right; apply error_answer_json;
                                       reflexivity]].
  destruct (truthy u); cbn;
    [| eexists; split; [reflexivity | right; apply error_answer_json;
                                       reflexivity]].
  destruct (backend _) as [r | e]; cbn;
    [| eexists; split; [reflexivity | right; apply error_answer_json;
                                       reflexivity]].
  destruct (ok r); cbn.
  - destruct (fr_json r) as [d | e]; cbn; [destruct (serialise d); cbn |];
      eexists; (split; [reflexivity |]);
      first [left; reflexivity | right; apply error_answer_json; reflexivity].
  - destruct (fr_json r) as [d | e]; cbn;
      [| eexists; split; [reflexivity | right; apply error_answer_json;
                                         reflexivity]].
    destruct (get d "detail") as [detail | e]; cbn;
      [| eexists; split; [reflexivity | right; apply error_answer_json;
                                         reflexivity]].
    destruct (valid_status (fr_status r)); cbn; eexists;
      (split; [reflexivity |]); right; apply error_answer_json;
      [apply js_or_truthy |]; reflexivity.
Qed.


Lemma download_answers : answers (DownloadRoute.POST backend request).
Proof.
  unfold answers, DownloadRoute.POST. unfold_async.
  destruct (request_json request) as [data | e]; cbn;
    [| eexists; split; [reflexivity | right; apply error_answer_json;
                                       reflexivity]].
  destruct (get data "url") as [u | e]; cbn;
    [| eexists; split; [reflexivity | right; apply error_answer_json;
                                       reflexivity]].
  destruct (get data "format_id") as [f | e]; cbn;
    [| eexists; split; [reflexivity | right; apply error_answer_json;
                                       reflexivity]].
  destruct (negb (truthy u) || negb (truthy f)); cbn;
    [eexists; split; [reflexivity | right; apply error_answer_json;
                                     reflexivity] |].
  destruct (backend _) as [r | e]; cbn;
    [| eexists; split; [reflexivity | right; apply error_answer_json;
                                       reflexivity]].
  destruct (ok r); cbn;
    [| eexists; split; [reflexivity | right; apply error_answer_json;
                                       reflexivity]].
  destruct (fr_blob r) as [blob | e]; cbn;
    [| eexists; split; [reflexivity | right; apply error_answer_json;
                                       reflexivity]].
  destruct (DownloadRoute.extension f) as [ext | e]; cbn;
    [match goal with
     | |- context [if ?c then _ else _] => destruct c; cbn
     end |];
    eexists; (split; [reflexivity |]);
    first [left; reflexivity | right; apply error_answer_json; reflexivity].
Qed.

End Answers.


(** X6. When the backend answers the download-simple route with a non-OK
    response, the backend's status reaches the client only if the error
    body can be read: a body that is not JSON, or is [null], gives 500
    with ['Download failed'], and so does a status that a response with a
    body cannot carry; a JSON body without a truthy [detail] gives the
    backend's status with the message ['Download failed']. *)
Theorem download_simple_error_without_detail
    (backend : Backend) (data u : jsval) (r : FetchResponse) :
  get data "url" = Ret u -> truthy u = true ->
  backend (DownloadSimpleRoute.backend_call u) = Ret r -> ok r = false ->
  let answer :=
    result (DownloadSimpleRoute.POST backend {| request_json := Ret data |})
  in
  ((exists e, fr_json r = Throw e) \/ fr_json r = Ret JNull ->
     answer = Ret download_failed)
  /\ (forall errorData detail,
        fr_json r = Ret errorData -> get errorData "detail" = Ret detail ->
        valid_status (fr_status r) = false -> answer = Ret download_failed)
  /\ (forall errorData detail,
        fr_json r = Ret errorData -> get errorData "detail" = Ret detail ->
        valid_status (fr_status r) = true -> truthy detail = false ->
        answer = Ret (json_response (fr_status r)
                        (error_body (JStr "Download failed")))).
Proof.
  intros Hu Htruthy Hr Hok answer. subst answer. split; [| split].
  - apply (simple_error_body_unreadable backend data u r Hu Htruthy Hr Hok).
  - apply (simple_error_status_refused backend data u r Hu Htruthy Hr Hok).
  - intros errorData detail Hjson Hdetail Hvalid Hfalsy.
    rewrite (download_simple_propagates backend data u r errorData detail
               Hu Htruthy Hr Hok Hvalid Hjson Hdetail).
    unfold js_or. rewrite Hfalsy. reflexivity.
Qed.

Lemma download_simple_error_without_detail_witness :
  result (DownloadSimpleRoute.POST (fun _ => Ret gateway_error)
            {| request_json := Ret (JObj [("url", JStr "https://youtu.be/abc")]) |})
  = Ret download_failed.
Proof.
  apply (download_simple_error_without_detail (fun _ => Ret gateway_error)
           (JObj [("url", JStr "https://youtu.be/abc")])
           (JStr "https://youtu.be/abc") gateway_error
           eq_refl eq_refl eq_refl eq_refl).
  left. exists SyntaxError. reflexivity.
Defined.

(** X7. A [format_id] that is truthy but not a string passes the
    validation of the format-download route: the backend is asked for the
    download, and whatever it answers the client gets 500 with
    ['Download failed']. *)
Theorem download_with_non_string_format_id
    (backend : Backend) (data u f : jsval) :
  get data "url" = Ret u -> truthy u = true ->
  get data "format_id" = Ret f -> truthy f = true ->
  (forall s, f <> JStr s) ->
  DownloadRoute.POST backend {| request_json := Ret data |}
  = (Ret download_failed, [DownloadRoute.backend_call u f]).
Proof.
  intros Hu Htruthy Hf Hft Hnot_string.
  assert (Hext : DownloadRoute.extension f = Throw TypeError).
  { destruct f; try reflexivity. exfalso. apply (Hnot_string s). reflexivity. }
  unfold DownloadRoute.POST. unfold_async.
  cbn. rewrite Hu. cbn. rewrite Hf. cbn. rewrite Htruthy, Hft. cbn.
  destruct (backend _) as [r | e]; [| reflexivity]. cbn.
  destruct (ok r); [| reflexivity]. cbn.
  destruct (fr_blob r) as [blob | e]; [| reflexivity]. cbn.
  rewrite Hext. reflexivity.
Qed.

Lemma download_with_non_string_format_id_witness :
  DownloadRoute.POST accepting_backend
    {| request_json :=
         Ret (JObj [("url", JStr "https://youtu.be/abc");
                    ("format_id", of_Z 137)]) |}
  = (Ret download_failed,
     [DownloadRoute.backend_call (JStr "https://youtu.be/abc") (of_Z 137)]).
Proof.
  apply (download_with_non_string_format_id accepting_backend
           (JObj [("url", JStr "https://youtu.be/abc");
                  ("format_id", of_Z 137)])
           (JStr "https://youtu.be/abc") (of_Z 137)
           eq_refl eq_refl eq_refl eq_refl).
  intros s. discriminate.
Defined.

(** X8. The video-info route and the format-download route send a
    request to the backend only once the body has passed validation, and
    then exactly one: a POST to their own endpoint carrying the fields of
    the body. *)
Theorem lookup_and_download_call_backend_at_most_once
    (backend : Backend) (request : NextRequest) :
  (sent (VideoInfoRoute.POST backend request) = []
   \/ exists data u,
        request_json request = Ret data /\ get data "url" = Ret u
        /\ truthy u = true
        /\ sent (VideoInfoRoute.POST backend request)
           = [VideoInfoRoute.backend_call u])
  /\ (sent (DownloadRoute.POST backend request) = []
      \/ exists data u f,
           request_json request = Ret data /\ get data "url" = Ret u
           /\ get data "format_id" = Ret f
           /\ truthy u = true /\ truthy f = true
           /\ sent (DownloadRoute.POST backend request)
              = [DownloadRoute.backend_call u f]).
Proof.
  split.
  - unfold VideoInfoRoute.POST. unfold_async.
    destruct (request_json request) as [data | e]; [| left; reflexivity].
    cbn. destruct (get data "url") as [u | e] eqn:Hu; [| left; reflexivity].
    cbn. destruct (truthy u) eqn:Htruthy; [| left; reflexivity].
    right. exists data, u. repeat split; try assumption. cbn.
    destruct (backend _) as [r | e]; [| reflexivity]. cbn.
    destruct (ok r); cbn; [| reflexivity].
    destruct (fr_json r) as [payload | e]; [| reflexivity]. cbn.
    destruct (serialise payload); reflexivity.
  - unfold DownloadRoute.POST. unfold_async.
    destruct (request_json request) as [data | e]; [| left; reflexivity].
    cbn. destruct (get data "url") as [u | e] eqn:Hu; [| left; reflexivity].
    cbn. destruct (get data "format_id") as [f | e] eqn:Hf;
      [| left; reflexivity].
    cbn. destruct (truthy u) eqn:Htruthy; [| left; reflexivity].
    destruct (truthy f) eqn:Hft; [| left; reflexivity].
    right. exists data, u, f. repeat split; try assumption. cbn.
    destruct (backend _) as [r | e]; [| reflexivity]. cbn.
    destruct (ok r); cbn; [| reflexivity].
    destruct (fr_blob r); cbn; [| reflexivity].
    destruct (DownloadRoute.extension f); [| reflexivity]. cbn.
    match goal with
    | |- context [if ?c then _ else _] => destruct c; reflexivity
    end.
Qed.

Lemma serialise_plain : forall v, plain v = true -> serialise v = Some v.
Proof.
  fix IH 1.
  intros [| | b | [| neg | q] | s | items | props] H;
    try reflexivity; try discriminate H.
  - cbn. do 2 f_equal.
    induction items as [| x items IHitems]; [reflexivity |].
    cbn in H. apply andb_prop in H as [Hx Hitems].
    cbn. rewrite (IH x Hx), (IHitems Hitems). reflexivity.
  - rewrite serialise_object. do 2 f_equal.
    induction props as [| [k x] props IHprops]; [reflexivity |].
    cbn in H. apply andb_prop in H as [Hx Hprops].
    cbn. rewrite (IH x Hx), (IHprops Hprops). reflexivity.
Qed.

(** A property that holds a number that is not finite is read back as
    [null]. *)
Lemma not_finite_arrives_null payload delivered k n :
  serialise payload = Some delivered ->
  get payload k = Ret (JNum n) -> finite n = false ->
  get delivered k = Ret JNull.
Proof.
  intros Hdelivered Hget Hn.
  destruct payload; try discriminate Hget.
  rewrite serialise_object in Hdelivered. injection Hdelivered as <-.
  cbn in *. f_equal. apply assoc_members.
  injection Hget as ->. destruct n; [reflexivity | reflexivity | discriminate].
Qed.

Lemma video_info_relays backend data u payload delivered r :
  get data "url" = Ret u -> truthy u = true ->
  ok r = true -> fr_json r = Ret payload ->
  serialise payload = Some delivered ->
  backend (VideoInfoRoute.backend_call u) = Ret r ->
  VideoInfoRoute.POST backend {| request_json := Ret data |}
  = (Ret (json_response 200 payload), [VideoInfoRoute.backend_call u]).
Proof.
  intros Hu Htruthy Hok Hjson Hdelivered Hr.
  unfold VideoInfoRoute.POST. unfold_async.
  cbn. rewrite Hu. cbn. rewrite Htruthy. cbn. rewrite Hr. cbn.
  rewrite Hok. cbn. rewrite Hjson. cbn. rewrite Hdelivered. reflexivity.
Qed.

Lemma download_simple_relays backend data u payload delivered r :
  get data "url" = Ret u -> truthy u = true ->
  ok r = true -> fr_json r = Ret payload ->
  serialise payload = Some delivered ->
  backend (DownloadSimpleRoute.backend_call u) = Ret r ->
  DownloadSimpleRoute.POST backend {| request_json := Ret data |}
  = (Ret (json_response 200 payload), [DownloadSimpleRoute.backend_call u]).
Proof.
  intros Hu Htruthy Hok Hjson Hdelivered Hr.
  unfold DownloadSimpleRoute.POST. unfold_async.
  cbn. rewrite Hu. cbn. rewrite Htruthy. cbn. rewrite Hr. cbn.
  rewrite Hok. cbn. rewrite Hjson. cbn. rewrite Hdelivered. reflexivity.
Qed.

(** What the client reads from a relayed body. *)
Lemma relayed_as_response parse payload delivered log :
  serialise payload = Some delivered ->
  Wire.as_response parse (Ret (json_response 200 payload), log)
  = Ret {| Page.cr_ok := true; Page.cr_json := Ret delivered |}.
Proof.
  intros H. unfold Wire.as_response, Wire.read_back. cbn. rewrite H.
  reflexivity.
Qed.

(** X9. When the backend answers OK with a JSON body, the video-info
    route and the download-simple route answer with status 200, whatever
    2xx status the backend gave, and hand the backend's body to
    [NextResponse.json]. The client reads the serialisation of that body:
    the same value when the body holds nothing but what JSON can say, and
    [null] in the place of a number that is not finite. *)
Theorem backend_json_is_relayed_with_status_200
    (parse : list Byte.byte -> outcome jsval)
    (backend : Backend) (data u payload delivered : jsval)
    (r : FetchResponse) :
  get data "url" = Ret u -> truthy u = true ->
  ok r = true -> fr_json r = Ret payload ->
  serialise payload = Some delivered ->
  (backend (VideoInfoRoute.backend_call u) = Ret r ->
     let answer := VideoInfoRoute.POST backend {| request_json := Ret data |}
     in
     answer
     = (Ret (json_response 200 payload), [VideoInfoRoute.backend_call u])
     /\ Wire.as_response parse answer
        = Ret {| Page.cr_ok := true; Page.cr_json := Ret delivered |})
  /\ (backend (DownloadSimpleRoute.backend_call u) = Ret r ->
      let answer :=
        DownloadSimpleRoute.POST backend {| request_json := Ret data |} in
      answer
      = (Ret (json_response 200 payload),
         [DownloadSimpleRoute.backend_call u])
      /\ Wire.as_response parse answer
         = Ret {| Page.cr_ok := true; Page.cr_json := Ret delivered |})
  /\ (plain payload = true -> delivered = payload)
  /\ (forall k n,
        get payload k = Ret (JNum n) -> finite n = false ->
        get delivered k = Ret JNull).
Proof.
  intros Hu Htruthy Hok Hjson Hdelivered. split; [| split; [| split]].
  - intros Hr answer. subst answer.
    rewrite (video_info_relays backend data u payload delivered r
               Hu Htruthy Hok Hjson Hdelivered Hr).
    split; [reflexivity |]. apply relayed_as_response. exact Hdelivered.
  - intros Hr answer. subst answer.
    rewrite (download_simple_relays backend data u payload delivered r
               Hu Htruthy Hok Hjson Hdelivered Hr).
    split; [reflexivity |]. apply relayed_as_response. exact Hdelivered.
  - intros Hplain. apply serialise_plain in Hplain. congruence.
  - intros k n. apply not_finite_arrives_null. exact Hdelivered.
Qed.

Lemma backend_json_is_relayed_with_status_200_witness :
  Wire.as_response no_parse
    (VideoInfoRoute.POST (fun _ => Ret oversized_video)
       {| request_json := Ret (JObj [("url", JStr "https://youtu.be/abc")]) |})
  = Ret {| Page.cr_ok := true;
           Page.cr_json := Ret (JObj [("title", JStr "abc");
                                      ("filesize", JNull)]) |}.
Proof.
  destruct (backend_json_is_relayed_with_status_200 no_parse
              (fun _ => Ret oversized_video)
              (JObj [("url", JStr "https://youtu.be/abc")])
              (JStr "https://youtu.be/abc")
              (JObj [("title", JStr "abc");
                     ("filesize", JNum (Infinity false))])
              (JObj [("title", JStr "abc"); ("filesize", JNull)])
              oversized_video
              eq_refl eq_refl eq_refl eq_refl eq_refl) as [Hinfo _].
  apply (Hinfo eq_refl).
Defined.

(** * Further properties of the page *)

(** ** Looking a video up *)

Section LookupOutcome.

Variable server : Page.Server.
Variable url : string.
Variable s : Lookup.Status.



End LookupOutcome.


Section LookupThroughRoute.

Variable parse : list Byte.byte -> outcome jsval.
Variable backend : Backend.
Variable others : Page.Server.
Variable url : string.
Hypothesis Hurl : Page.str_truthy url = true.

(** What the page's request makes of the video-info route. *)
Lemma video_info_route_for_page :
  VideoInfoRoute.POST backend (Wire.as_request (Lookup.request url))
  = (Ret match backend (VideoInfoRoute.backend_call (JStr url)) with
         | Ret r =>
             if ok r then
               match fr_json r with
               | Ret data =>
                   match serialise data with
                   | Some _ => json_response 200 data
                   | None => video_info_failed
                   end
               | Throw _ => video_info_failed
               end
             else video_info_failed
         | Throw _ => video_info_failed
         end,
     [VideoInfoRoute.backend_call (JStr url)]).
Proof using Hurl.
  unfold VideoInfoRoute.POST, Wire.as_request, Lookup.request.
  unfold_async. cbn. unfold Page.str_truthy in Hurl. cbn in Hurl.
  rewrite Hurl. cbn.
  destruct (backend _) as [r | e]; [| reflexivity]. cbn.
  destruct (ok r); [| reflexivity]. cbn.
  destruct (fr_json r) as [data | e]; [| reflexivity]. cbn.
  destruct (serialise data); reflexivity.
Qed.

Lemma app_routes_lookup :
  Wire.app parse backend others (Lookup.request url)
  = Wire.as_response parse
      (VideoInfoRoute.POST backend (Wire.as_request (Lookup.request url))).
Proof. reflexivity. Qed.

End LookupThroughRoute.

(** X11. Through the video-info route, a lookup of the page makes exactly
    one request to the backend; the route's own ['URL is required'] answer
    cannot occur, since the page does not send an empty URL. The page ends
    with the backend's JSON, as the route serialises it, as the video when
    the backend answered OK with JSON, and in every other case (network
    error, any non-OK status, unparsable body) with no video and the one
    fixed failure message. *)
Theorem lookup_through_route
    (parse : list Byte.byte -> outcome jsval) (backend : Backend)
    (others : Page.Server) (url : string) (s : Lookup.Status) :
  Page.str_truthy url = true ->
  let answer :=
    VideoInfoRoute.POST backend (Wire.as_request (Lookup.request url)) in
  let s' :=
    Lookup.run s
      (sent (Lookup.fetchVideoInfo (Wire.app parse backend others) url)) in
  let answered r data video :=
    backend (VideoInfoRoute.backend_call (JStr url)) = Ret r
    /\ ok r = true /\ fr_json r = Ret data /\ serialise data = Some video in
  sent answer = [VideoInfoRoute.backend_call (JStr url)]
  /\ (status_of answer = Some 200 \/ status_of answer = Some 500)
  /\ Lookup.loading s' = false
  /\ ((exists r data video,
          answered r data video
          /\ Lookup.videoInfo s' = video /\ Lookup.error s' = "")
      \/ (~ (exists r data video, answered r data video)
          /\ Lookup.videoInfo s' = JNull
          /\ Lookup.error s' = lookup_failed)).
Proof.
  intros Hurl answer s' answered. subst answer s' answered.
  unfold Lookup.fetchVideoInfo. rewrite Hurl.
  unfold Lookup.finally, Lookup.fetch, Lookup.setLoading, Lookup.setError,
    Lookup.setVideoInfo, bind, try_catch, tell, lift, throw.
  cbn [negb]. rewrite (app_routes_lookup parse backend others url).
  rewrite (video_info_route_for_page backend url Hurl).
  unfold Wire.as_response, Wire.read_back, status_of.
  destruct (backend (VideoInfoRoute.backend_call (JStr url)))
    as [r | e] eqn:Hr.
  - destruct (ok r) eqn:Hok.
    + destruct (fr_json r) as [data | e] eqn:Hjson.
      * destruct (serialise data) as [video |] eqn:Hvideo.
        -- cbn. rewrite Hvideo.
           repeat split; [left; reflexivity |].
           left. exists r, data, video. repeat split; assumption.
        -- repeat split; [right; reflexivity |].
           right. split; [| split; reflexivity].
           intros (r' & data' & video & Hr' & _ & Hjson' & Hvideo').
           congruence.
      * repeat split; [right; reflexivity |].
        right. split; [| split; reflexivity].
        intros (r' & data' & video & Hr' & _ & Hjson' & _). congruence.
    + repeat split; [right; reflexivity |].
      right. split; [| split; reflexivity].
      intros (r' & data' & video & Hr' & Hok' & _). congruence.
  - repeat split; [right; reflexivity |].
    right. split; [| split; reflexivity].
    intros (r' & data' & video & Hr' & _). discriminate.
Qed.

Lemma lookup_through_route_witness :
  Lookup.error
    (Lookup.run {| Lookup.loading := false; Lookup.error := "";
                   Lookup.videoInfo := JNull |}
       (sent (Lookup.fetchVideoInfo
                (Wire.app no_parse refusing_backend unreachable_server)
                "https://youtu.be/abc")))
  = lookup_failed.
Proof.
  destruct (lookup_through_route no_parse refusing_backend unreachable_server
              "https://youtu.be/abc"
              {| Lookup.loading := false; Lookup.error := "";
                 Lookup.videoInfo := JNull |} eq_refl)
    as (_ & _ & _ & [(r & data & video & _ & _ & Herror)
                    | (_ & _ & Herror)]).
  - cbv zeta in Herror. vm_compute in Herror. discriminate Herror.
  - exact Herror.
Defined.

(** ** Answers that carry no task id *)

Section WithoutId.

Variable server : Page.Server.
Variable st : Page.State.
Hypothesis Hinfo : truthy (Page.videoInfo st) = true.

Lemma download_by_route_answered route r data id :
  server (tier_request st route) = Ret r -> Page.cr_json r = Ret data ->
  get data "download_id" = Ret id ->
  sent (Page.download_by_route route server st)
  = Page.SetDownloadProgress (Some Page.fresh_download)
    :: Page.Fetch (tier_request st route)
    :: (if truthy id
        then [Page.SetDownloadProgress (Some (Page.started id))]
        else []).
Proof using Hinfo.
  intros Hr Hjson Hid. unfold Page.download_by_route. rewrite Hinfo.
  unfold_async. cbn. fold (tier_request st route). rewrite Hr. cbn.
  rewrite Hjson. cbn. rewrite Hid. cbn. destruct (truthy id); reflexivity.
Qed.

Lemma downloadVideo_answered r data msg s id :
  Page.str_truthy (Page.selectedFormat st) = true ->
  server (submission st) = Ret r -> Page.cr_json r = Ret data ->
  get data "message" = Ret msg ->
  is_str msg "Download task already exists" = false ->
  get data "status" = Ret s -> is_str s "failed" = false ->
  get data "download_id" = Ret id ->
  sent (Page.downloadVideo server st)
  = Page.SetDownloadProgress (Some Page.fresh_download)
    :: Page.Fetch (submission st)
    :: (if truthy id
        then [Page.SetDownloadProgress (Some (Page.started id))]
        else []).
Proof using Hinfo.
  intros Hfmt Hr Hjson Hmsg Hnot_dup Hs Hnot_failed Hid.
  unfold Page.downloadVideo. rewrite Hfmt, Hinfo.
  unfold Page.on_submission_response. unfold_async. cbn.
  fold (submission st). rewrite Hr. cbn. rewrite Hjson. cbn.
  rewrite Hmsg. cbn. rewrite Hnot_dup. cbn. rewrite Hs. cbn.
  rewrite Hnot_failed. cbn. rewrite Hid. cbn.
  destruct (truthy id); reflexivity.
Qed.

End WithoutId.

Lemma fresh_is_waiting interpolate st' :
  Page.downloadProgress st' = Some Page.fresh_download ->
  waiting_without_id interpolate st'.
Proof.
  intros H. unfold waiting_without_id, Render.download_disabled,
    Render.tier_disabled.
  rewrite H. repeat split; try reflexivity; apply orb_true_r.
Qed.

(** X12. A click on one of the three tier buttons whose request is
    answered by JSON without a truthy [download_id] (whatever the status
    of the response, and whatever error the body reports) leaves the page
    in the fresh ['downloading'] state: the card shows 0 percent, no
    progress stream is opened, all download buttons are disabled and the
    cancel button sends nothing. The same holds for [downloadVideo] when
    the answer in addition is neither the duplicate marker nor a failed
    status. *)
Theorem answer_without_id_leaves_page_waiting
    (interpolate : jsval -> string) (server : Page.Server) (st : Page.State)
    (r : Page.ClientResponse) (data id : jsval) :
  truthy (Page.videoInfo st) = true ->
  Page.cr_json r = Ret data ->
  get data "download_id" = Ret id -> truthy id = false ->
  (forall route,
      server (tier_request st route) = Ret r ->
      waiting_without_id interpolate
        (after st (sent (Page.download_by_route route server st))))
  /\ (forall msg s,
        Page.str_truthy (Page.selectedFormat st) = true ->
        server (submission st) = Ret r ->
        get data "message" = Ret msg ->
        is_str msg "Download task already exists" = false ->
        get data "status" = Ret s -> is_str s "failed" = false ->
        waiting_without_id interpolate
          (after st (sent (Page.downloadVideo server st)))).
Proof.
  intros Hinfo Hjson Hid Hfalsy. split.
  - intros route Hr. apply fresh_is_waiting.
    rewrite (download_by_route_answered server st Hinfo route r data id
               Hr Hjson Hid), Hfalsy.
    reflexivity.
  - intros msg s Hfmt Hr Hmsg Hnot_dup Hs Hnot_failed.
    apply fresh_is_waiting.
    rewrite (downloadVideo_answered server st Hinfo r data msg s id
               Hfmt Hr Hjson Hmsg Hnot_dup Hs Hnot_failed Hid), Hfalsy.
    reflexivity.
Qed.

Lemma answer_without_id_leaves_page_waiting_witness :
  waiting_without_id (fun _ => "")
    (after ready (sent (Page.downloadSimple error_only_server ready))).
Proof.
  destruct (answer_without_id_leaves_page_waiting (fun _ => "")
              error_only_server ready
              {| Page.cr_ok := false;
                 Page.cr_json :=
                   Ret (JObj [("error", JStr "Download failed")]) |}
              (JObj [("error", JStr "Download failed")]) JUndefined
              eq_refl eq_refl eq_refl eq_refl) as [Htier _].
  apply (Htier "/api/download-simple"). reflexivity.
Defined.

(** ** The page in front of the routes *)

Section ThroughRoutes.

Variable parse : list Byte.byte -> outcome jsval.
Variable backend : Backend.
Variable others : Page.Server.
Variable st : Page.State.
Hypothesis Hinfo : truthy (Page.videoInfo st) = true.

Lemma refused_answer_as_response answer :
  answers answer -> status_of answer <> Some 200 ->
  exists okay msg,
    Wire.as_response parse answer
    = Ret {| Page.cr_ok := okay; Page.cr_json := Ret (error_body msg) |}.
Proof.
  intros (resp & Hresult & Hcases) Hstatus.
  unfold status_of in Hstatus. rewrite Hresult in Hstatus.
  destruct Hcases as [H200 | (msg & Hmsg & Hbody)];
    [exfalso; apply Hstatus; rewrite H200; reflexivity |].
  destruct (serialise_truthy msg Hmsg) as [delivered Hdelivered].
  unfold Wire.as_response, Wire.read_back, error_body.
  rewrite Hresult, Hbody. cbn. rewrite Hdelivered. eauto.
Qed.

Lemma refused_simple_download :
  status_of (DownloadSimpleRoute.POST backend
               (Wire.as_request (tier_request st "/api/download-simple")))
  <> Some 200 ->
  sent (Page.downloadSimple (Wire.app parse backend others) st)
  = [Page.SetDownloadProgress (Some Page.fresh_download);
     Page.Fetch (tier_request st "/api/download-simple")].
Proof using Hinfo.
  intros Hstatus.
  destruct (refused_answer_as_response _
              (download_simple_answers backend _) Hstatus)
    as (okay & msg & Hanswer).
  unfold Page.downloadSimple.
  rewrite (download_by_route_answered (Wire.app parse backend others) st
             Hinfo "/api/download-simple"
             {| Page.cr_ok := okay; Page.cr_json := Ret (error_body msg) |}
             (error_body msg) JUndefined);
    [reflexivity | exact Hanswer | reflexivity | reflexivity].
Qed.

Lemma refused_format_download :
  Page.str_truthy (Page.selectedFormat st) = true ->
  status_of (DownloadRoute.POST backend (Wire.as_request (submission st)))
  <> Some 200 ->
  sent (Page.downloadVideo (Wire.app parse backend others) st)
  = [Page.SetDownloadProgress (Some Page.fresh_download);
     Page.Fetch (submission st)].
Proof using Hinfo.
  intros Hfmt Hstatus.
  destruct (refused_answer_as_response _
              (download_answers backend _) Hstatus)
    as (okay & msg & Hanswer).
  rewrite (downloadVideo_answered (Wire.app parse backend others) st
             Hinfo
             {| Page.cr_ok := okay; Page.cr_json := Ret (error_body msg) |}
             (error_body msg) JUndefined JUndefined JUndefined);
    [reflexivity | exact Hfmt | exact Hanswer | reflexivity ..].
Qed.

Lemma started_simple_download r data id id' :
  Page.str_truthy (Page.url st) = true ->
  backend (DownloadSimpleRoute.backend_call (JStr (Page.url st))) = Ret r ->
  ok r = true -> fr_json r = Ret data ->
  get data "download_id" = Ret id -> serialise id = Some id' ->
  sent (Page.downloadSimple (Wire.app parse backend others) st)
  = Page.SetDownloadProgress (Some Page.fresh_download)
    :: Page.Fetch (tier_request st "/api/download-simple")
    :: (if truthy id'
        then [Page.SetDownloadProgress (Some (Page.started id'))]
        else []).
Proof using Hinfo.
  intros Hurl Hr Hok Hjson Hid Hid'.
  destruct (get_read_back data "download_id" id id' Hid Hid')
    as (delivered & Hdelivered & Hget).
  unfold Page.downloadSimple.
  apply (download_by_route_answered (Wire.app parse backend others) st
           Hinfo "/api/download-simple"
           {| Page.cr_ok := true; Page.cr_json := Ret delivered |}
           delivered id');
    [| reflexivity | exact Hget].
  change (Wire.app parse backend others
            (tier_request st "/api/download-simple"))
    with (Wire.as_response parse
            (DownloadSimpleRoute.POST backend
               {| request_json := Ret (JObj [("url", JStr (Page.url st))]) |})).
  rewrite (download_simple_relays backend
             (JObj [("url", JStr (Page.url st))]) (JStr (Page.url st))
             data delivered r eq_refl Hurl Hok Hjson Hdelivered Hr).
  apply relayed_as_response. exact Hdelivered.
Qed.

End ThroughRoutes.

(** X13. When the route answers a download request of the page with
    anything but status 200 (the URL field is empty, the backend cannot
    be reached or refuses, its answer cannot be read), the page shows no
    error: [downloadSimple], and likewise [downloadVideo], leave it in the
    fresh ['downloading'] state at 0 percent, with no progress stream,
    every download button disabled and a cancel button that sends
    nothing. *)
Theorem refused_download_is_not_reported
    (interpolate : jsval -> string)
    (parse : list Byte.byte -> outcome jsval) (backend : Backend)
    (others : Page.Server) (st : Page.State) :
  truthy (Page.videoInfo st) = true ->
  (status_of (DownloadSimpleRoute.POST backend
                (Wire.as_request (tier_request st "/api/download-simple")))
   <> Some 200 ->
   waiting_without_id interpolate
     (after st
        (sent (Page.downloadSimple (Wire.app parse backend others) st))))
  /\ (Page.str_truthy (Page.selectedFormat st) = true ->
      status_of (DownloadRoute.POST backend
                   (Wire.as_request (submission st)))
      <> Some 200 ->
      waiting_without_id interpolate
        (after st
           (sent (Page.downloadVideo (Wire.app parse backend others) st)))).
Proof.
  intros Hinfo. split.
  - intros Hstatus. apply fresh_is_waiting.
    rewrite (refused_simple_download parse backend others st Hinfo Hstatus).
    reflexivity.
  - intros Hfmt Hstatus. apply fresh_is_waiting.
    rewrite (refused_format_download parse backend others st Hinfo
               Hfmt Hstatus).
    reflexivity.
Qed.

Lemma refused_download_is_not_reported_witness :
  waiting_without_id (fun _ => "")
    (after ready
       (sent (Page.downloadSimple
                (Wire.app no_parse refusing_backend unreachable_server)
                ready)))
  /\ waiting_without_id (fun _ => "")
       (after ready
          (sent (Page.downloadVideo
                   (Wire.app no_parse refusing_backend unreachable_server)
                   ready))).
Proof.
  destruct (refused_download_is_not_reported (fun _ => "") no_parse
              refusing_backend unreachable_server ready eq_refl)
    as [Hsimple Hvideo].
  split.
  - apply Hsimple. discriminate.
  - apply Hvideo; [reflexivity | discriminate].
Defined.

(** X14. When the backend answers the download-simple route OK with a
    JSON body that carries a truthy [download_id], the page reads the id
    as the route serialises it. [downloadSimple] then ends in the
    ['downloading'] state of that id at 0 percent, and that state makes
    the effect open the progress stream of exactly that id; a string
    arrives as it is. The one exception is an id that is an infinite
    number: it arrives as [null], and the page stays in the fresh
    ['downloading'] state without a stream. *)
Theorem started_download_opens_its_stream
    (interpolate : jsval -> string)
    (parse : list Byte.byte -> outcome jsval) (backend : Backend)
    (others : Page.Server) (st : Page.State) (r : FetchResponse)
    (data id : jsval) :
  truthy (Page.videoInfo st) = true ->
  Page.str_truthy (Page.url st) = true ->
  backend (DownloadSimpleRoute.backend_call (JStr (Page.url st))) = Ret r ->
  ok r = true -> fr_json r = Ret data ->
  get data "download_id" = Ret id -> truthy id = true ->
  let st' :=
    after st
      (sent (Page.downloadSimple (Wire.app parse backend others) st)) in
  exists id',
    serialise id = Some id'
    /\ (forall s, id = JStr s -> id' = id)
    /\ (truthy id' = false <-> exists neg, id = JNum (Infinity neg))
    /\ (truthy id' = true ->
        Page.downloadProgress st' = Some (Page.started id')
        /\ Render.stream_target (Page.downloadProgress st') = Some id'
        /\ Render.panels (Page.downloadProgress st')
           = [Render.DownloadingCard]
        /\ Render.tier_disabled st' = true)
    /\ (truthy id' = false -> waiting_without_id interpolate st').
Proof.
  intros Hinfo Hurl Hr Hok Hjson Hid Htruthy st'. subst st'.
  destruct (serialise_truthy id Htruthy) as [id' Hid'].
  exists id'. split; [exact Hid' |].
  split; [intros s ->; cbn in Hid'; congruence |].
  split; [exact (serialise_truthy_cases id id' Htruthy Hid') |].
  rewrite (started_simple_download parse backend others st Hinfo r data id
             id' Hurl Hr Hok Hjson Hid Hid').
  split; intros Hid'_truthy; rewrite Hid'_truthy.
  - unfold Render.tier_disabled, Render.stream_target. cbn.
    rewrite Hid'_truthy. repeat split. apply orb_true_r.
  - apply fresh_is_waiting. reflexivity.
Qed.

Lemma started_download_opens_its_stream_witness :
  Render.stream_target
    (Page.downloadProgress
       (after ready
          (sent (Page.downloadSimple
                   (Wire.app no_parse starting_backend unreachable_server)
                   ready))))
  = Some (JStr "d41d8").
Proof.
  destruct (started_download_opens_its_stream (fun _ => "") no_parse
              starting_backend unreachable_server ready
              {| fr_status := 200;
                 fr_json := Ret (JObj [("download_id", JStr "d41d8");
                                       ("status", JStr "started")]);
                 fr_blob := Ret [] |}
              (JObj [("download_id", JStr "d41d8");
                     ("status", JStr "started")])
              (JStr "d41d8")
              eq_refl eq_refl eq_refl eq_refl eq_refl eq_refl eq_refl)
    as (id' & Hid' & _ & _ & Hstarted & _).
  injection Hid' as <-.
  apply Hstarted. reflexivity.
Defined.

(** ** More on the progress stream *)

Section StreamInvariants.

Variable captured : Page.DownloadProgress.

Lemma updates_app t1 t2 :
  Page.updates (t1 ++ t2) = Page.updates t1 ++ Page.updates t2.
Proof.
  induction t1 as [| a t1 IH]; [reflexivity |].
  destruct a; cbn; rewrite IH; reflexivity.
Qed.

Lemma passed_over_is_silent parsed :
  passed_over parsed -> sent (Page.onmessage captured parsed) = [].
Proof.
  intros [e | | progressData Hs]; [reflexivity | reflexivity |].
  exact (keepalive_is_ignored captured progressData Hs).
Qed.

(** The cleanup of the effect sets no state. *)
Lemma updates_deliver parsed :
  Page.updates (Page.deliver captured parsed)
  = Page.updates (sent (Page.onmessage captured parsed)).
Proof.
  unfold Page.deliver. rewrite updates_app.
  destruct (Page.changes_dependency captured parsed);
    cbn; apply app_nil_r.
Qed.

(** A message that is passed over does not touch the dependency of the
    effect. *)
Lemma passed_over_is_inert parsed :
  passed_over parsed -> Page.deliver captured parsed = [].
Proof.
  intros Hpassed. unfold Page.deliver.
  rewrite (passed_over_is_silent parsed Hpassed).
  destruct Hpassed as [e | | progressData Hs]; [reflexivity | reflexivity |].
  destruct (status_is_of_object progressData "keepalive" Hs)
    as (props & -> & Hst).
  cbn. rewrite Hst. reflexivity.
Qed.

Lemma shown_is_identified props s :
  truthy (Page.download_id captured) = true ->
  truthy (Page.download_id (shown captured props s)) = true.
Proof. intros H. cbn. apply js_or_truthy. exact H. Qed.

Lemma onmessage_identified parsed :
  truthy (Page.download_id captured) = true ->
  all_identified (Page.updates (sent (Page.onmessage captured parsed))).
Proof.
  intros Hid. unfold all_identified.
  destruct parsed as [v | e]; [| constructor].
  destruct v; try (cbn; constructor);
    try (apply (shown_is_identified [] JUndefined Hid)); try constructor.
  rewrite onmessage_object. cbv zeta.
  destruct (is_str (assoc "status" props) "keepalive"); [constructor |].
  cbn [Page.updates]. constructor; [apply shown_is_identified, Hid |].
  destruct (is_str (assoc "status" props) "completed"); [constructor |].
  destruct (is_str (assoc "status" props) "failed"); [constructor |].
  destruct (is_str (assoc "status" props) "cancelled");
    cbn; repeat constructor.
Qed.

Lemma receive_identified events : forall v,
  truthy (Page.download_id captured) = true ->
  all_identified (Page.updates (Page.receive captured events v)).
Proof.
  induction events as [| parsed rest IH]; intros v Hid; [constructor |].
  cbn. destruct (Page.stream_open v); [| constructor].
  rewrite updates_app, updates_deliver. apply Forall_app. split.
  - apply onmessage_identified, Hid.
  - apply IH, Hid.
Qed.

Lemma receive_skips es1 parsed es2 : forall v,
  passed_over parsed ->
  Page.receive captured (es1 ++ parsed :: es2) v
  = Page.receive captured (es1 ++ es2) v.
Proof.
  induction es1 as [| e es1 IH]; intros v Hpassed.
  - cbn. rewrite (passed_over_is_inert parsed Hpassed). cbn.
    destruct (Page.stream_open v) eqn:Hopen; [reflexivity |].
    symmetry. apply closed_stream_is_silent. exact Hopen.
  - cbn. destruct (Page.stream_open v); [| reflexivity].
    rewrite (IH _ Hpassed). reflexivity.
Qed.

End StreamInvariants.

(** X15. While the page follows a stream that was opened for a state
    with a truthy [download_id], every progress state that the events of
    the stream put on the page carries a truthy [download_id] too: an
    event without one keeps the id of the subscription, so the cancel
    button always has a task to name. *)
Theorem stream_never_loses_the_download_id
    (captured : Page.DownloadProgress) (events : list (outcome jsval))
    (v : Page.View) :
  Page.subscribes (Some captured) = true ->
  all_identified (Page.updates (Page.receive captured events v)).
Proof.
  intros Hsub. apply receive_identified.
  cbn in Hsub. apply andb_prop in Hsub as [Hid _]. exact Hid.
Qed.

Lemma stream_never_loses_the_download_id_witness :
  all_identified
    (Page.updates
       (Page.receive (Page.started (JStr "d41d8"))
          [Ret (JObj [("status", JStr "downloading");
                      ("progress", of_Z 40)]);
           Ret (JObj [("status", JStr "completed")])]
          watching)).
Proof.
  apply (stream_never_loses_the_download_id (Page.started (JStr "d41d8"))
           [Ret (JObj [("status", JStr "downloading");
                       ("progress", of_Z 40)]);
            Ret (JObj [("status", JStr "completed")])]
           watching).
  reflexivity.
Defined.

(** X16. Events that cannot be parsed, [null] events and keepalives are
    transparent: wherever one of them arrives in the stream, everything
    the page does is the same as if it had not arrived. *)
Theorem passed_over_events_are_transparent
    (captured : Page.DownloadProgress)
    (before later : list (outcome jsval)) (parsed : outcome jsval)
    (v : Page.View) :
  passed_over parsed ->
  Page.receive captured (before ++ parsed :: later) v
  = Page.receive captured (before ++ later) v.
Proof. intros H. apply receive_skips. exact H. Qed.

Lemma passed_over_events_are_transparent_witness :
  Page.receive (Page.started (JStr "d41d8"))
    ([Ret (JObj [("status", JStr "downloading"); ("progress", of_Z 40)])]
     ++ Throw SyntaxError
     :: [Ret (JObj [("status", JStr "completed")])]) watching
  = Page.receive (Page.started (JStr "d41d8"))
      ([Ret (JObj [("status", JStr "downloading"); ("progress", of_Z 40)])]
       ++ [Ret (JObj [("status", JStr "completed")])]) watching.
Proof.
  apply (passed_over_events_are_transparent (Page.started (JStr "d41d8"))
           [Ret (JObj [("status", JStr "downloading");
                       ("progress", of_Z 40)])]
           [Ret (JObj [("status", JStr "completed")])]
           (Throw SyntaxError) watching).
  apply unparsable.
Defined.

(** ** What is rendered *)

Lemma is_str_exclusive v a b :
  a <> b -> is_str v a = true -> is_str v b = false.
Proof.
  intros Hne Ha. destruct v; try discriminate. cbn in *.
  apply String.eqb_eq in Ha. subst s. apply String.eqb_neq. exact Hne.
Qed.

Lemma panels_at_most_one dp : (length (Render.panels dp) <= 1)%nat.
Proof.
  destruct dp as [p |]; [| cbn; lia]. unfold Render.panels.
  destruct (is_str (Page.status p) "downloading") eqn:H1.
  - rewrite (is_str_exclusive _ "downloading" "exists"),
      (is_str_exclusive _ "downloading" "completed"),
      (is_str_exclusive _ "downloading" "error");
      try assumption; try discriminate. cbn. lia.
  - destruct (is_str (Page.status p) "exists") eqn:H2.
    + rewrite (is_str_exclusive _ "exists" "completed"),
        (is_str_exclusive _ "exists" "error");
        try assumption; try discriminate. cbn. lia.
    + destruct (is_str (Page.status p) "completed") eqn:H3.
      * rewrite (is_str_exclusive _ "completed" "error");
          try assumption; try discriminate. cbn. lia.
      * destruct (is_str (Page.status p) "error"); cbn; lia.
Qed.

Section BlocksAfterEvent.

Variable captured : Page.DownloadProgress.
Variable props : list (string * jsval).
Variable v : Page.View.

Let s := assoc "status" props.
Let v' := Page.run v (sent (Page.onmessage captured (Ret (JObj props)))).
Let v'' := Page.run v (Page.deliver captured (Ret (JObj props))).

Lemma failed_event_shows_error :
  is_str s "failed" = true ->
  Render.panels (Page.progress_state v') = [Render.ErrorAlert]
  /\ Page.stream_open v' = false.
Proof.
  intros Hfailed. subst v'. rewrite onmessage_object. cbv zeta. fold s.
  rewrite (is_str_exclusive s "failed" "keepalive"),
    (is_str_exclusive s "failed" "completed"), Hfailed;
    try assumption; try discriminate.
  cbn. rewrite Hfailed. split; reflexivity.
Qed.

Lemma unknown_event_shows_nothing :
  forallb (fun k => negb (is_str s k))
    ["keepalive"; "downloading"; "exists"; "completed"; "error"; "failed";
     "cancelled"] = true ->
  Render.panels (Page.progress_state v') = []
  /\ Render.downloading (Page.progress_state v') = false
  /\ Page.stream_open v' = Page.stream_open v.
Proof.
  intros Hnone. subst v'. rewrite onmessage_object. cbv zeta. fold s.
  cbn in Hnone.
  repeat (apply andb_prop in Hnone as [?H Hnone]).
  repeat match goal with
         | H : negb _ = true |- _ => apply negb_true_iff in H
         end.
  rewrite H, H2, H4, H5. unfold shown. cbn. fold s.
  rewrite H4, H0, H1, H2, H3.
  repeat split.
Qed.

(** The view after a message: the one [onmessage] leaves, with the
    stream closed when the dependency of the effect has changed. *)
Lemma run_deliver parsed :
  Page.run v (Page.deliver captured parsed)
  = let w := Page.run v (sent (Page.onmessage captured parsed)) in
    if Page.changes_dependency captured parsed
    then {| Page.progress_state := Page.progress_state w;
            Page.stream_open := false |}
    else w.
Proof.
  unfold Page.deliver, Page.run. rewrite fold_left_app.
  destruct (Page.changes_dependency captured parsed); reflexivity.
Qed.

Lemma failed_event_delivered :
  is_str s "failed" = true ->
  Render.panels (Page.progress_state v'') = [Render.ErrorAlert]
  /\ Page.stream_open v'' = false.
Proof.
  intros Hfailed. subst v''. rewrite run_deliver. cbv zeta.
  destruct (failed_event_shows_error Hfailed) as [Hpanels Hclosed].
  destruct (Page.changes_dependency captured (Ret (JObj props)));
    split; assumption || reflexivity.
Qed.

Lemma unknown_event_delivered :
  forallb (fun k => negb (is_str s k))
    ["keepalive"; "downloading"; "exists"; "completed"; "error"; "failed";
     "cancelled"] = true ->
  Render.panels (Page.progress_state v'') = []
  /\ Render.downloading (Page.progress_state v'') = false
  /\ Page.stream_open v''
     = if carries_other_id captured props then false else Page.stream_open v.
Proof.
  intros Hnone. subst v''. rewrite run_deliver. cbv zeta.
  destruct (unknown_event_shows_nothing Hnone) as (Hpanels & Hdown & Hopen).
  assert (Hchanges : Page.changes_dependency captured (Ret (JObj props))
                     = carries_other_id captured props).
  { cbn in Hnone.
    repeat (apply andb_prop in Hnone as [?H Hnone]).
    repeat match goal with
           | H : negb _ = true |- _ => apply negb_true_iff in H
           end.
    unfold Page.changes_dependency. fold s.
    rewrite H, H5. reflexivity. }
  rewrite Hchanges.
  destruct (carries_other_id captured props);
    repeat split; assumption || reflexivity.
Qed.

End BlocksAfterEvent.

(** X17. The progress area never shows more than one of its four blocks.
    After a message with the status ['failed'] it shows the error alert and
    the stream is closed. After a message whose status is none of the
    statuses the page knows (for instance ['paused'], which the type of
    the progress state lists), it shows no block at all and the download
    buttons are no longer held disabled by the progress state; the stream
    stays as it was unless the message carries another [download_id] than
    the captured one, in which case the cleanup of the effect closes
    it. *)
Theorem blocks_after_an_event
    (captured : Page.DownloadProgress) (props : list (string * jsval))
    (v : Page.View) (dp : option Page.DownloadProgress) :
  let s := assoc "status" props in
  let v' := Page.run v (Page.deliver captured (Ret (JObj props))) in
  (length (Render.panels dp) <= 1)%nat
  /\ (is_str s "failed" = true ->
      Render.panels (Page.progress_state v') = [Render.ErrorAlert]
      /\ Page.stream_open v' = false)
  /\ (forallb (fun k => negb (is_str s k))
        ["keepalive"; "downloading"; "exists"; "completed"; "error";
         "failed"; "cancelled"] = true ->
      Render.panels (Page.progress_state v') = []
      /\ Render.downloading (Page.progress_state v') = false
      /\ Page.stream_open v'
         = if carries_other_id captured props then false
           else Page.stream_open v).
Proof.
  intros s v'. split; [apply panels_at_most_one |]. split.
  - apply failed_event_delivered.
  - apply unknown_event_delivered.
Qed.

Lemma blocks_after_an_event_witness :
  let v' :=
    Page.run watching
      (Page.deliver (Page.started (JStr "d41d8"))
         (Ret (JObj [("status", JStr "paused")]))) in
  Render.panels (Page.progress_state v') = []
  /\ Render.downloading (Page.progress_state v') = false
  /\ Page.stream_open v' = true.
Proof.
  cbv zeta.
  apply (blocks_after_an_event (Page.started (JStr "d41d8"))
           [("status", JStr "paused")] watching None).
  reflexivity.
Defined.

(** ** Resolution colours *)

Lemma prefix_occurs sub s :
  String.prefix sub s = true <-> exists b, s = sub +:+ b.
Proof.
  revert s. induction sub as [| c sub IH]; intros s.
  - split; [intros _; exists s; reflexivity | intros _; destruct s; reflexivity].
  - destruct s as [| d s]; cbn.
    + split; [discriminate | intros [b Hb]; discriminate].
    + destruct (Ascii.ascii_dec c d) as [-> | Hne].
      * rewrite IH. split; intros [b Hb]; exists b.
        -- rewrite Hb. reflexivity.
        -- change (String d sub +:+ b) with (String d (sub +:+ b)) in Hb.
           congruence.
      * split; [discriminate |]. intros [b Hb].
        change (String c sub +:+ b) with (String c (sub +:+ b)) in Hb.
        congruence.
Qed.

Lemma includes_occurs sub s :
  Quality.includes sub s = true <-> occurs sub s.
Proof.
  induction s as [| c s IH].
  - change (Quality.includes sub "")
      with (String.prefix sub "" || false).
    rewrite orb_true_iff, prefix_occurs. split.
    + intros [[b Hb] | H]; [| discriminate]. exists "", b. exact Hb.
    + intros (a & b & Hab). left. destruct a; [exists b; exact Hab |].
      discriminate.
  - change (Quality.includes sub (String c s))
      with (String.prefix sub (String c s) || Quality.includes sub s).
    rewrite orb_true_iff, prefix_occurs, IH. split.
    + intros [[b Hb] | (a & b & Hab)].
      * exists "", b. exact Hb.
      * exists (String c a), b. rewrite Hab. reflexivity.
    + intros (a & b & Hab). destruct a as [| d a].
      * left. exists b. exact Hab.
      * right. exists a, b.
        change (String d a +:+ sub +:+ b)
          with (String d (a +:+ sub +:+ b)) in Hab.
        congruence.
Qed.

Lemma not_occurs sub s :
  ~ occurs sub s <-> Quality.includes sub s = false.
Proof.
  rewrite <- includes_occurs.
  destruct (Quality.includes sub s); split; intros H;
    first [reflexivity | discriminate | exfalso; apply H; reflexivity
          | intros H'; discriminate].
Qed.

(** X18. [getQualityColor] gives the gray default exactly to the
    resolutions in which none of [2160], [4K], [1440], [1080], [720] and
    [480] occurs anywhere, and the purple of the highest tier to every
    resolution in which [2160] or [4K] occurs, whatever else it
    contains. *)
Theorem getQualityColor_default_and_top (resolution : string) :
  (Quality.getQualityColor resolution = gray
   <-> Forall (fun k => ~ occurs k resolution)
         ["2160"; "4K"; "1440"; "1080"; "720"; "480"])
  /\ (Quality.getQualityColor resolution = purple
      <-> occurs "2160" resolution \/ occurs "4K" resolution).
Proof.
  rewrite !Forall_cons, Forall_nil, !not_occurs, <- !includes_occurs.
  unfold Quality.getQualityColor.
  destruct (Quality.includes "2160" resolution),
    (Quality.includes "4K" resolution),
    (Quality.includes "1440" resolution),
    (Quality.includes "1080" resolution),
    (Quality.includes "720" resolution),
    (Quality.includes "480" resolution);
    cbn; (split; split; intros H);
    first [reflexivity | discriminate H | tauto
          | now destruct H as [H | H]; discriminate H
          | now repeat split
          | now (repeat match type of H with
                        | _ /\ _ => let H1 := fresh in
                                    destruct H as [H1 H]; try discriminate H1
                        end)].
Qed.

(** ** More on file sizes *)

Lemma suffixed_is_not_unknown text i :
  String.eqb (text +:+ " " +:+ Page.size_name i) "Unknown size" = false.
Proof.
  apply String.eqb_neq. intros Heq.
  apply (f_equal last_char) in Heq.
  rewrite last_char_app in Heq; [| discriminate].
  pose proof (size_name_cases i) as Hcases. cbn in Hcases.
  repeat (destruct Hcases as [Hname | Hcases];
          [rewrite <- Hname in Heq; discriminate Heq |]).
  destruct Hcases.
Qed.

(** X19. [formatFileSize] returns ['Unknown size'] exactly for the falsy
    inputs ([undefined], [null], [0], [NaN]): for every other input the
    text ends in a space and one of [Bytes], [KB], [MB], [GB] or
    [undefined], the last for a size whose unit index is not one of
    0 to 3. This holds whatever the floating-point part computes. *)
Theorem formatFileSize_unknown_exactly_when_falsy
    (unit_index : jsval -> option Z) (scaled : jsval -> option Z -> string)
    (bytes : jsval) :
  String.eqb (Page.formatFileSize unit_index scaled bytes) "Unknown size"
  = negb (truthy bytes)
  /\ (if truthy bytes then
        Page.formatFileSize unit_index scaled bytes
        = scaled bytes (unit_index bytes) +:+ " "
          +:+ Page.size_name (unit_index bytes)
        /\ In (Page.size_name (unit_index bytes))
             ["Bytes"; "KB"; "MB"; "GB"; "undefined"]
        /\ (Page.size_name (unit_index bytes) = "undefined"
            <-> ~ exists z, unit_index bytes = Some z /\ 0 <= z <= 3)
      else True).
Proof.
  assert (Hguard : truthy bytes = true -> is_zero bytes = false).
  { destruct bytes as [| | b | [| neg | q] | s | items | props];
      try reflexivity; cbn.
    destruct (Qeq_bool q 0); [discriminate | reflexivity]. }
  unfold Page.formatFileSize.
  destruct (truthy bytes) eqn:Htruthy; [| split; [reflexivity | exact I]].
  rewrite (Hguard eq_refl). cbn [negb].
  split; [apply suffixed_is_not_unknown |].
  split; [reflexivity |]. split; [apply size_name_cases |].
  unfold Page.size_name.
  destruct (unit_index bytes) as [z |];
    [| split; [intros _ (z & Hz & _); discriminate | reflexivity]].
  destruct (z <? 0) eqn:Hneg.
  - apply Z.ltb_lt in Hneg. split; [| reflexivity].
    intros _ (z' & Hz' & Hrange). injection Hz' as ->. lia.
  - apply Z.ltb_ge in Hneg.
    destruct (Z.to_nat z) as [| [| [| [| n]]]] eqn:Hn; cbn.
    + split; [discriminate |]. intros H. exfalso. apply H. exists z.
      split; [reflexivity | lia].
    + split; [discriminate |]. intros H. exfalso. apply H. exists z.
      split; [reflexivity | lia].
    + split; [discriminate |]. intros H. exfalso. apply H. exists z.
      split; [reflexivity | lia].
    + split; [discriminate |]. intros H. exfalso. apply H. exists z.
      split; [reflexivity | lia].
    + split; [| reflexivity].
      intros _ (z' & Hz' & Hrange). injection Hz' as ->. lia.
Qed.

(** ** A failed submission *)

(** X20. When the answer to [downloadVideo] reports the status
    ['failed'] (and is not the duplicate marker), the page shows the error
    alert with the error of the answer, or ['Download failed'] when the
    answer has none; the retry button is offered exactly when the answer
    carries a truthy [download_id]; no progress stream is opened and the
    download buttons are not held disabled. *)
Theorem failed_submission_is_shown
    (server : Page.Server) (st : Page.State) (r : Page.ClientResponse)
    (data msg e id : jsval) :
  Page.str_truthy (Page.selectedFormat st) = true ->
  truthy (Page.videoInfo st) = true ->
  server (submission st) = Ret r -> Page.cr_json r = Ret data ->
  get data "message" = Ret msg ->
  is_str msg "Download task already exists" = false ->
  get data "status" = Ret (JStr "failed") ->
  get data "error" = Ret e -> get data "download_id" = Ret id ->
  exists p,
    Page.downloadProgress (after st (sent (Page.downloadVideo server st)))
    = Some p
    /\ Render.panels (Some p) = [Render.ErrorAlert]
    /\ Page.error p = js_or e (JStr "Download failed")
    /\ truthy (Page.error p) = true
    /\ Render.retry_shown p = truthy id
    /\ Render.stream_target (Some p) = None
    /\ Render.downloading (Some p) = false.
Proof.
  intros Hfmt Hinfo Hr Hjson Hmsg Hnot_dup Hs He Hid.
  unfold Page.downloadVideo. rewrite Hfmt, Hinfo.
  unfold Page.on_submission_response. unfold_async. cbn.
  fold (submission st). rewrite Hr. cbn. rewrite Hjson. cbn.
  rewrite Hmsg. cbn. rewrite Hnot_dup. cbn. rewrite Hs. cbn.
  rewrite He. cbn. rewrite Hid. cbn.
  eexists. split; [reflexivity |].
  split; [reflexivity |]. split; [reflexivity |].
  split; [apply js_or_truthy; reflexivity |].
  split; [reflexivity |].
  unfold Render.stream_target. cbn. rewrite andb_false_r.
  split; reflexivity.
Qed.

Lemma failed_submission_is_shown_witness :
  exists p,
    Page.downloadProgress
      (after ready (sent (Page.downloadVideo failing_server ready)))
    = Some p
    /\ Render.panels (Some p) = [Render.ErrorAlert]
    /\ Page.error p
       = js_or (JStr "Requested format is not available")
           (JStr "Download failed")
    /\ truthy (Page.error p) = true
    /\ Render.retry_shown p = truthy (JStr "d41d8")
    /\ Render.stream_target (Some p) = None
    /\ Render.downloading (Some p) = false.
Proof.
  apply (failed_submission_is_shown failing_server ready
           {| Page.cr_ok := true;
              Page.cr_json :=
                Ret (JObj [("status", JStr "failed");
                           ("error",
                            JStr "Requested format is not available");
                           ("download_id", JStr "d41d8")]) |}
           (JObj [("status", JStr "failed");
                  ("error", JStr "Requested format is not available");
                  ("download_id", JStr "d41d8")])
           JUndefined (JStr "Requested format is not available")
           (JStr "d41d8")
           eq_refl eq_refl eq_refl eq_refl eq_refl eq_refl eq_refl eq_refl
           eq_refl).
Defined.

(** ** A broken stream *)

(** X21. An error of the event source closes it and changes nothing
    else: the page keeps the progress state it had, so a page that showed
    the downloading card keeps showing it with its buttons disabled, and
    none of the events that follow is delivered. *)
Theorem stream_error_freezes_the_page
    (captured : Page.DownloadProgress) (v : Page.View)
    (later : list (outcome jsval)) :
  let v' := Page.run v (sent Render.onerror) in
  Page.progress_state v' = Page.progress_state v
  /\ Page.stream_open v' = false
  /\ Page.receive captured later v' = []
  /\ Render.panels (Page.progress_state v')
     = Render.panels (Page.progress_state v)
  /\ Render.downloading (Page.progress_state v')
     = Render.downloading (Page.progress_state v).
Proof.
  intros v'. subst v'. cbn.
  repeat split. apply closed_stream_is_silent. reflexivity.
Qed.

(** ** A format download through its route *)

Section FormatDownloadThroughRoute.

Variable parse : list Byte.byte -> outcome jsval.
Variable backend : Backend.
Variable others : Page.Server.
Variable st : Page.State.
Variable r : FetchResponse.
Variable blob : list Byte.byte.
Hypothesis Hinfo : truthy (Page.videoInfo st) = true.
Hypothesis Hfmt : Page.str_truthy (Page.selectedFormat st) = true.
Hypothesis Hurl : Page.str_truthy (Page.url st) = true.
Hypothesis Hbackend :
  backend (DownloadRoute.backend_call (JStr (Page.url st))
             (JStr (Page.selectedFormat st))) = Ret r.
Hypothesis Hok : ok r = true.
Hypothesis Hblob : fr_blob r = Ret blob.

Let e := DownloadRoute.second_segment_or_mp4 (Page.selectedFormat st).

Lemma format_download_route :
  DownloadRoute.POST backend (Wire.as_request (submission st))
  = (Ret (if header_safe e then attachment blob e else download_failed),
     [DownloadRoute.backend_call (JStr (Page.url st))
        (JStr (Page.selectedFormat st))]).
Proof using Hfmt Hurl Hbackend Hok Hblob.
  apply (download_delivered backend
           (JObj [("url", JStr (Page.url st));
                  ("format_id", JStr (Page.selectedFormat st))])
           (JStr (Page.url st)) (Page.selectedFormat st) r blob);
    try reflexivity; try assumption.
  intros Hempty. unfold Page.str_truthy in Hfmt. rewrite Hempty in Hfmt.
  discriminate Hfmt.
Qed.

Lemma format_download_answer :
  Wire.app parse backend others (submission st)
  = Ret (if header_safe e
         then {| Page.cr_ok := true; Page.cr_json := parse blob |}
         else {| Page.cr_ok := false;
                 Page.cr_json := Ret (error_body (JStr "Download failed")) |}).
Proof using Hfmt Hurl Hbackend Hok Hblob.
  change (Wire.app parse backend others (submission st))
    with (Wire.as_response parse
            (DownloadRoute.POST backend (Wire.as_request (submission st)))).
  rewrite format_download_route. unfold Wire.as_response.
  destruct (header_safe e); reflexivity.
Qed.

Lemma format_download_trace :
  header_safe e = true ->
  sent (Page.downloadVideo (Wire.app parse backend others) st)
  = Page.SetDownloadProgress (Some Page.fresh_download)
    :: Page.Fetch (submission st)
    :: match parse blob with
       | Ret data =>
           match Page.on_submission_response data with
           | (Ret _, trace) => trace
           | (Throw _, trace) =>
               trace ++ [Page.SetDownloadProgress (Some Page.request_failed)]
           end
       | Throw _ => [Page.SetDownloadProgress (Some Page.request_failed)]
       end.
Proof using Hinfo Hfmt Hurl Hbackend Hok Hblob.
  intros Hsafe.
  pose proof format_download_answer as Hanswer. rewrite Hsafe in Hanswer.
  unfold Page.downloadVideo. rewrite Hfmt, Hinfo.
  fold (submission st).
  unfold bind, try_catch, Page.fetch, Page.setDownloadProgress, tell, lift,
    sent.
  rewrite Hanswer. cbn.
  destruct (parse blob) as [data | err]; [| reflexivity].
  destruct (Page.on_submission_response data) as [[[] | err] trace];
    reflexivity.
Qed.

Lemma format_download_refused :
  header_safe e = false ->
  sent (Page.downloadVideo (Wire.app parse backend others) st)
  = [Page.SetDownloadProgress (Some Page.fresh_download);
     Page.Fetch (submission st)].
Proof using Hinfo Hfmt Hurl Hbackend Hok Hblob.
  intros Hunsafe.
  pose proof format_download_answer as Hanswer. rewrite Hunsafe in Hanswer.
  apply (downloadVideo_answered (Wire.app parse backend others) st Hinfo
           {| Page.cr_ok := false;
              Page.cr_json := Ret (error_body (JStr "Download failed")) |}
           (error_body (JStr "Download failed"))
           JUndefined JUndefined JUndefined);
    try reflexivity; assumption.
Qed.

End FormatDownloadThroughRoute.

(** X22. When the backend answers the format download OK and the file
    name is made of printable characters, the route answers 200 with the
    backend's bytes, and what the page does depends on whether those bytes
    are JSON. If they are not (the media file itself, say),
    [downloadVideo] ends in the error state ['Download failed. Please try
    again.'], with the error alert, no retry button and no progress stream,
    although the route answered 200. If they are, the page handles the
    parsed value as the answer to its submission. When the file name
    holds a character that a header value cannot hold, the route answers
    500 and the page stays in the fresh ['downloading'] state. *)
Theorem format_download_needs_a_json_answer
    (interpolate : jsval -> string)
    (parse : list Byte.byte -> outcome jsval) (backend : Backend)
    (others : Page.Server) (st : Page.State) (r : FetchResponse)
    (blob : list Byte.byte) :
  truthy (Page.videoInfo st) = true ->
  Page.str_truthy (Page.selectedFormat st) = true ->
  Page.str_truthy (Page.url st) = true ->
  backend (DownloadRoute.backend_call (JStr (Page.url st))
             (JStr (Page.selectedFormat st))) = Ret r ->
  ok r = true -> fr_blob r = Ret blob ->
  let e := DownloadRoute.second_segment_or_mp4 (Page.selectedFormat st) in
  let answer :=
    DownloadRoute.POST backend (Wire.as_request (submission st)) in
  let trace := sent (Page.downloadVideo (Wire.app parse backend others) st) in
  (printable e = true ->
   result answer = Ret (attachment blob e)
   /\ ((exists err, parse blob = Throw err) ->
       Page.downloadProgress (after st trace) = Some Page.request_failed
       /\ Render.panels (Some Page.request_failed) = [Render.ErrorAlert]
       /\ Render.retry_shown Page.request_failed = false
       /\ Render.stream_target (Some Page.request_failed) = None)
   /\ (forall data,
         parse blob = Ret data ->
         Page.fetched trace = ["/api/download"]
         /\ Page.updates trace
            = Some Page.fresh_download
              :: Page.updates (sent (Page.on_submission_response data))
                 ++ match result (Page.on_submission_response data) with
                    | Ret _ => []
                    | Throw _ => [Some Page.request_failed]
                    end))
  /\ (header_safe e = false ->
      result answer = Ret download_failed
      /\ waiting_without_id interpolate (after st trace)).
Proof.
  intros Hinfo Hfmt Hurl Hr Hok Hblob e answer trace. subst e answer trace.
  rewrite (format_download_route backend st r blob Hfmt Hurl Hr Hok Hblob).
  split; intros Hsafe; [apply printable_is_safe in Hsafe |]; rewrite Hsafe.
  - rewrite (format_download_trace parse backend others st r blob
               Hinfo Hfmt Hurl Hr Hok Hblob Hsafe).
    split; [reflexivity |]. split.
    + intros [err ->]. repeat split.
    + intros data ->.
      pose proof (on_submission_response_fetches data) as Hnone.
      unfold sent, result in *.
      destruct (Page.on_submission_response data) as [[[] | err] trace];
        cbn in *.
      * rewrite Hnone, app_nil_r. split; reflexivity.
      * rewrite fetched_app, updates_app, Hnone. split; reflexivity.
  - split; [reflexivity |]. apply fresh_is_waiting.
    rewrite (format_download_refused parse backend others st r blob
               Hinfo Hfmt Hurl Hr Hok Hblob Hsafe).
    reflexivity.
Qed.

Lemma format_download_needs_a_json_answer_witness :
  Page.downloadProgress
    (after ready
       (sent (Page.downloadVideo
                (Wire.app no_parse accepting_backend unreachable_server)
                ready)))
  = Some Page.request_failed.
Proof.
  destruct (format_download_needs_a_json_answer (fun _ => "") no_parse
              accepting_backend unreachable_server ready
              {| fr_status := 200; fr_json := Ret (JObj []);
                 fr_blob := Ret [] |} []
              eq_refl eq_refl eq_refl eq_refl eq_refl eq_refl)
    as [Hsafe _].
  destruct (Hsafe eq_refl) as (_ & Hfail & _).
  apply Hfail. exists SyntaxError. reflexivity.
Defined.
